(** * Budget Buddy: the month-record store and the budget model

    A shallow embedding of [budget_buddy.py]: the per-month JSON store
    ([get_data_file], [load_month_data], [save_month_data],
    [list_saved_months]) and the arithmetic on month records
    ([calculate_totals], [aggregate_year]).

    The program is dynamically typed, so the embedding keeps Python's values
    as they are after [json.load]: a month record is a [dict], an amount is
    whatever the file holds until [float(...)] has been applied to it.
    Exceptions are results, the data directory is threaded as explicit
    state. *)

From Stdlib Require Import ZArith Floats.SpecFloat.
From stdpp Require Import gmap strings list sorting pretty.

Set Warnings "-register-all".

Local Open Scope Z_scope.

(** ** Python floats

    A Python [float] is an IEEE 754 binary64 number; [spec_float] with
    precision 53 and maximal exponent 1024 is exactly that format, with one
    NaN and two zeros. *)

Module PyFloat.

Definition float : Type := spec_float.

Definition prec : Z := 53.
Definition emax : Z := 1024.

Definition pos_zero : float := S754_zero false.
Definition neg_zero : float := S754_zero true.

(** [x + y] and [x - y] on floats. *)
Definition fadd (x y : float) : float := SFadd prec emax x y.
Definition fsub (x y : float) : float := SFsub prec emax x y.

(** [x == y], [x < y] on floats: NaN is equal to nothing, the two zeros
    are equal. *)
Definition feqb (x y : float) : bool := SFeqb x y.
Definition fltb (x y : float) : bool := SFltb x y.

Definition is_nan (x : float) : bool :=
  match x with S754_nan => true | _ => false end.

(** [float(n)] for an [int]: the nearest float, [OverflowError] (here
    [None]) when [n] is too large to be one. *)
Definition of_int (n : Z) : option float :=
  match binary_normalize prec emax n 0 false with
  | S754_infinity _ => None
  | f => Some f
  end.

(** Float literals of the examples: [lit n] is [n.0]. *)
Definition lit (n : Z) : float := binary_normalize prec emax n 0 false.

(** [sum(xs)]: Python adds from the left, starting at [0]; the first
    addition [0 + x] converts that [0] to [0.0]. The sum of nothing is
    the integer [0], which is equal to the [0.0] it is represented by.
    (CPython 3.12 and later also carry a correction term for the rounding
    of the additions; the sum here is the plain accumulation.) *)
Definition pysum (xs : list float) : float := fold_left fadd xs pos_zero.

End PyFloat.
Export PyFloat.

(** The grammar of [float(s)] for a string [s] is Python's own and no part
    of this program: it is a parameter of the development. [None] is the
    [ValueError] of a string that is no float literal. *)
Class FloatSyntax := float_of_str : string → option float.

(** ** Python values and exceptions *)

Inductive value : Type :=
  | VNone
  | VBool (b : bool)
  | VInt (n : Z)
  | VFloat (f : float)
  | VStr (s : string)
  | VList (xs : list value)
  | VDict (kvs : list (string * value)).

Inductive exn : Type :=
  | TypeError
  | ValueError
  | AttributeError
  | OverflowError
  | JSONDecodeError
  | FileNotFoundError.

Inductive result (A : Type) : Type :=
  | Ok (a : A)
  | Raise (e : exn).
Arguments Ok {A} a.
Arguments Raise {A} e.

#[global] Instance result_ret : MRet result := λ A a, Ok a.
#[global] Instance result_bind : MBind result := λ A B f m,
  match m with Ok a => f a | Raise e => Raise e end.

Definition is_ok {A} (r : result A) : bool :=
  match r with Ok _ => true | Raise _ => false end.

(** [for x in xs] collecting results: the first exception ends the loop. *)
Fixpoint for_each {A B} (f : A → result B) (xs : list A) : result (list B) :=
  match xs with
  | [] => Ok []
  | x :: xs' => y ← f x; ys ← for_each f xs'; Ok (y :: ys)
  end.

Module Py.

(** Truth value of an object, as [or] and [bool(...)] test it. *)
Definition truthy (v : value) : bool :=
  match v with
  | VNone => false
  | VBool b => b
  | VInt n => negb (n =? 0)%Z
  | VFloat f => negb (feqb f pos_zero)
  | VStr s => negb (String.eqb s "")
  | VList xs => match xs with [] => false | _ => true end
  | VDict kvs => match kvs with [] => false | _ => true end
  end.

(** [a or b], for operands whose evaluation cannot raise. *)
Definition or_ (a b : value) : value := if truthy a then a else b.

Definition bool (v : value) : value := VBool (truthy v).

(** A [dict] is its items in insertion order, keys distinct. *)
Fixpoint lookup_key (k : string) (kvs : list (string * value)) : option value :=
  match kvs with
  | [] => None
  | (k', v) :: kvs' => if String.eqb k k' then Some v else lookup_key k kvs'
  end.

(** [d[k] = v]: the value is replaced in place, a new key goes last. *)
Fixpoint set_key (k : string) (v : value) (kvs : list (string * value))
  : list (string * value) :=
  match kvs with
  | [] => [(k, v)]
  | (k', v') :: kvs' =>
      if String.eqb k k' then (k, v) :: kvs' else (k', v') :: set_key k v kvs'
  end.

(** [d.get(k, default)]: only a [dict] has the method. *)
Definition get (d : value) (k : string) (dflt : value) : result value :=
  match d with
  | VDict kvs => Ok (default dflt (lookup_key k kvs))
  | _ => Raise AttributeError
  end.

(** [float(v)]. *)
Definition float_ `{FloatSyntax} (v : value) : result float :=
  match v with
  | VFloat f => Ok f
  | VInt n => match of_int n with Some f => Ok f | None => Raise OverflowError end
  | VBool b => Ok (if b then lit 1 else pos_zero)
  | VStr s => match float_of_str s with Some f => Ok f | None => Raise ValueError end
  | VNone | VList _ | VDict _ => Raise TypeError
  end.

(** The elements a [for] loop or a comprehension draws from [v]. *)
Definition iter (v : value) : result (list value) :=
  match v with
  | VList xs => Ok xs
  | VDict kvs => Ok (map (λ kv, VStr (fst kv)) kvs)
  | VStr s => Ok (map (λ c, VStr (String c "")) (String.list_ascii_of_string s))
  | VNone | VBool _ | VInt _ | VFloat _ => Raise TypeError
  end.

End Py.

(** ** The data directory

    [DATA_DIR] is a flat directory of files, keyed by file name. The text of
    a file is identified with what [json.load] makes of it: the value it
    parses to, or a decode error. [json.dump] writes text that parses back
    to the value dumped. *)

Inductive file : Type :=
  | Json (v : value)
  | Malformed.

Abbreviation store := (gmap string file).

(** Code that reads or writes the directory: a result and the directory
    afterwards. *)
Definition io (A : Type) : Type := store → result A * store.

#[global] Instance io_ret : MRet io := λ A a st, (Ok a, st).
#[global] Instance io_bind : MBind io := λ A B f m st,
  match m st with
  | (Ok a, st') => f a st'
  | (Raise e, st') => (Raise e, st')
  end.

Definition lift {A} (r : result A) : io A := λ st, (r, st).

Fixpoint io_for_each {A B} (f : A → io B) (xs : list A) : io (list B) :=
  match xs with
  | [] => mret []
  | x :: xs' => y ← f x; ys ← io_for_each f xs'; mret (y :: ys)
  end.

Module Fs.

(** [fp.exists()] *)
Definition exists_ (name : string) : io bool :=
  λ st, (Ok (bool_decide (is_Some (st !! name))), st).

(** [with open(fp, "r") as f: json.load(f)] *)
Definition json_load (name : string) : io value :=
  λ st, match st !! name with
        | Some (Json v) => (Ok v, st)
        | Some Malformed => (Raise JSONDecodeError, st)
        | None => (Raise FileNotFoundError, st)
        end.

(** A name with a path separator points below the directory. *)
Definition has_separator (name : string) : bool :=
  existsb (λ c, String.eqb (String c EmptyString) "/")
    (String.list_ascii_of_string name).

(** [with open(fp, "w") as f: json.dump(data, f, indent=2)]: the file is
    created or replaced. The directory is flat, so there is nothing to open
    under a name that points below it. Every value of the embedding is one
    that [json.dump] writes. *)
Definition json_dump (name : string) (data : value) : io unit :=
  λ st, if has_separator name then (Raise FileNotFoundError, st)
        else (Ok (), <[name := Json data]> st).

(** The names in the directory, in the order the system lists them. *)
Definition listdir : io (list string) :=
  λ st, (Ok (map fst (map_to_list st)), st).

End Fs.

(** ** The program *)

Section BudgetBuddy.
Context `{FloatSyntax}.

Definition get_data_file (month_ym : string) : string :=
  "budget_" +:+ month_ym +:+ ".json".

Definition default_month_data : value :=
  VDict [
    ("rollover", VFloat pos_zero);
    ("debt", VFloat pos_zero);
    ("income_items", VList [
      VDict [("name", VStr "Paycheck"); ("amount", VFloat pos_zero)]]);
    ("bill_items", VList [
      VDict [("name", VStr "Rent/Mortgage"); ("amount", VFloat pos_zero); ("paid", VBool false)];
      VDict [("name", VStr "Utilities"); ("amount", VFloat pos_zero); ("paid", VBool false)];
      VDict [("name", VStr "Internet"); ("amount", VFloat pos_zero); ("paid", VBool false)]]);
    ("expense_items", VList [
      VDict [("name", VStr "Groceries"); ("spent", VFloat pos_zero)];
      VDict [("name", VStr "Dining Out"); ("spent", VFloat pos_zero)];
      VDict [("name", VStr "Transportation"); ("spent", VFloat pos_zero)]]);
    ("savings_items", VList [
      VDict [("name", VStr "Emergency Fund"); ("saved", VFloat pos_zero)];
      VDict [("name", VStr "Retirement"); ("saved", VFloat pos_zero)]])
  ].

(** [float(x.get(key, 0.0) or 0.0)] *)
Definition float_field (x : value) (key : string) : result float :=
  v ← Py.get x key (VFloat pos_zero);
  Py.float_ (Py.or_ v (VFloat pos_zero)).

(** [d[k] = v] on a value known to be a [dict]. *)
Definition setitem (d : value) (k : string) (v : value) : value :=
  match d with
  | VDict kvs => VDict (Py.set_key k v kvs)
  | _ => d
  end.

(** [{"name": x.get("name", ""), key: float(x.get(key, 0.0) or 0.0)}] *)
Definition normalize_item (key : string) (x : value) : result value :=
  name ← Py.get x "name" (VStr "");
  amount ← float_field x key;
  Ok (VDict [("name", name); (key, VFloat amount)]).

(** The bill item: [float(x.get("amount") or x.get("actual", 0.0) or 0.0)]
    and [bool(x.get("paid", False))]. *)
Definition bill_amount (x : value) : result float :=
  a ← Py.get x "amount" VNone;
  v ← (if Py.truthy a then Ok a
       else b ← Py.get x "actual" (VFloat pos_zero); Ok (Py.or_ b (VFloat pos_zero)));
  Py.float_ v.

Definition normalize_bill (x : value) : result value :=
  name ← Py.get x "name" (VStr "");
  amount ← bill_amount x;
  paid ← Py.get x "paid" (VBool false);
  Ok (VDict [("name", name); ("amount", VFloat amount); ("paid", Py.bool paid)]).

(** The body of [load_month_data] under [# Normalize old data]: from the
    parsed file [d] to the record returned. *)
Definition normalize (d : value) : result value :=
  let out := default_month_data in
  rollover ← float_field d "rollover";
  let out := setitem out "rollover" (VFloat rollover) in
  debt ← float_field d "debt";
  let out := setitem out "debt" (VFloat debt) in
  income ← Py.get d "income_items" (VList []);
  xs ← Py.iter income;
  income_items ← for_each (normalize_item "amount") xs;
  let out := setitem out "income_items" (VList income_items) in
  bills ← Py.get d "bill_items" (VList []);
  xs ← Py.iter bills;
  bill_items ← for_each normalize_bill xs;
  let out := setitem out "bill_items" (VList bill_items) in
  expenses ← Py.get d "expense_items" (VList []);
  xs ← Py.iter expenses;
  expense_items ← for_each (normalize_item "spent") xs;
  let out := setitem out "expense_items" (VList expense_items) in
  savings ← Py.get d "savings_items" (VList []);
  xs ← Py.iter savings;
  savings_items ← for_each (normalize_item "saved") xs;
  let out := setitem out "savings_items" (VList savings_items) in
  Ok out.

Definition load_month_data (month_ym : string) : io value :=
  let fp := get_data_file month_ym in
  present ← Fs.exists_ fp;
  if (present : bool) then
    d ← Fs.json_load fp;
    lift (normalize d)
  else mret default_month_data.

Definition save_month_data (month_ym : string) (data : value) : io unit :=
  let fp := get_data_file month_ym in
  Fs.json_dump fp data.

(** *** [list_saved_months]

    A file name is the string of its bytes. In a name made of ASCII
    characters [\d] matches the ASCII digits and nothing else, which is how
    [is_digit] reads it. Python's [\d] also matches the decimal digits of
    other scripts; in a name those are bytes above 127, which [is_digit]
    refuses. What is proved of the look of a listed key is therefore stated
    for directories whose file names are ASCII ([ascii_names], below). *)

Definition is_digit (c : Ascii.ascii) : bool :=
  let n := Ascii.N_of_ascii c in ((48 <=? n) && (n <=? 57))%N.

(** [\d{4}-\d{2}] against a whole string. *)
Definition is_month_key (s : string) : bool :=
  match String.list_ascii_of_string s with
  | [y1; y2; y3; y4; dash; m1; m2] =>
      is_digit y1 && is_digit y2 && is_digit y3 && is_digit y4
      && String.eqb (String dash EmptyString) "-" && is_digit m1 && is_digit m2
  | _ => false
  end.

(** [budget_(\d{4}-\d{2})\.json] at the start of [s]: the group. *)
Definition match_here (s : string) : option string :=
  let key := String.substring 7 7 s in
  if String.prefix "budget_" s && is_month_key key
     && String.eqb (String.substring 14 5 s) ".json"
  then Some key else None.

(** [re.findall(r"budget_(\d{4}-\d{2})\.json", name)], then [m[0]] when
    [m] is not empty: the group of the leftmost match. *)
Fixpoint first_match (name : string) : option string :=
  match match_here name with
  | Some key => Some key
  | None =>
      match name with
      | EmptyString => None
      | String _ name' => first_match name'
      end
  end.

Definition ends_with (suffix s : string) : bool :=
  let n := String.length s in
  let k := String.length suffix in
  bool_decide (k ≤ n)%nat && String.eqb (String.substring (n - k) k s) suffix.

(** The names [DATA_DIR.glob("budget_*.json")] selects. *)
Definition glob_budget (name : string) : bool :=
  String.prefix "budget_" name && ends_with ".json" name
  && bool_decide (12 ≤ String.length name)%nat.

(** [sorted(set(months))] *)
Definition sorted_set (months : list string) : list string :=
  merge_sort String.le (remove_dups months).

Definition list_saved_months : io (list string) :=
  names ← Fs.listdir;
  let months := omap first_match (filter (λ p, glob_budget p = true) names) in
  mret (sorted_set months).

(** *** [aggregate_year]

    A [DataFrame] built from a list of row dicts is that list of rows. *)

Record row : Type := Row {
  Month : string;
  Income : float;
  Expenses : float;
  Bills : float;
  Saved : float;
  Debt : float;
  Left : float
}.

(** [sum(float(x.get(field, 0.0) or 0.0) for x in d.get(key, []))] *)
Definition sum_field (d : value) (key field : string) : result float :=
  items ← Py.get d key (VList []);
  xs ← Py.iter items;
  amounts ← for_each (λ x, float_field x field) xs;
  Ok (pysum amounts).

(** The body of the loop of [aggregate_year], for the record [d] loaded
    for month [ym]. *)
Definition year_row (ym : string) (d : value) : result row :=
  income ← sum_field d "income_items" "amount";
  expenses ← sum_field d "expense_items" "spent";
  bills ← sum_field d "bill_items" "amount";
  saved ← sum_field d "savings_items" "saved";
  debt ← float_field d "debt";
  let left := fsub (fsub (fsub (fsub income expenses) bills) saved) debt in
  Ok (Row ym income expenses bills saved debt left).

(** [f"{year}-"] *)
Definition year_prefix (year : Z) : string := pretty year +:+ "-".

Definition aggregate_year (year : Z) : io (list row) :=
  saved ← list_saved_months;
  let months := filter (λ m, String.prefix (year_prefix year) m = true) saved in
  io_for_each (λ ym, d ← load_month_data ym; lift (year_row ym d)) months.

(** *** [calculate_totals] *)

Record totals : Type := Totals {
  total_income : float;
  total_bills : float;
  total_expenses : float;
  total_savings : float;
  total_debt : float;
  rollover : float;
  left_amount : float
}.

Definition calculate_totals (data : value) : result totals :=
  total_income ← sum_field data "income_items" "amount";
  total_bills ← sum_field data "bill_items" "amount";
  total_expenses ← sum_field data "expense_items" "spent";
  total_savings ← sum_field data "savings_items" "saved";
  total_debt ← float_field data "debt";
  rollover ← float_field data "rollover";
  let left_amount :=
    fsub (fsub (fsub (fsub (fadd total_income rollover) total_expenses)
                     total_bills) total_savings) total_debt in
  Ok (Totals total_income total_bills total_expenses total_savings
             total_debt rollover left_amount).

End BudgetBuddy.

(** ** Month records, typed

    What [load_month_data] returns for a stored month has a fixed shape:
    two floats and four lists of items, each item a name (whatever the file
    held under ["name"]) and a float. [to_dict] is the Python value of such
    a record. *)

Record line_item : Type := LineItem {
  i_name : value;
  i_amount : float
}.

Record bill_item : Type := BillItem {
  b_name : value;
  b_amount : float;
  b_paid : bool
}.

Record month_data : Type := MonthData {
  md_rollover : float;
  md_debt : float;
  md_income : list line_item;
  md_bills : list bill_item;
  md_expenses : list line_item;
  md_savings : list line_item
}.

Definition item_to_dict (key : string) (it : line_item) : value :=
  VDict [("name", i_name it); (key, VFloat (i_amount it))].

Definition bill_to_dict (b : bill_item) : value :=
  VDict [("name", b_name b); ("amount", VFloat (b_amount b)); ("paid", VBool (b_paid b))].

Definition to_dict (r : month_data) : value :=
  VDict [
    ("rollover", VFloat (md_rollover r));
    ("debt", VFloat (md_debt r));
    ("income_items", VList (map (item_to_dict "amount") (md_income r)));
    ("bill_items", VList (map bill_to_dict (md_bills r)));
    ("expense_items", VList (map (item_to_dict "spent") (md_expenses r)));
    ("savings_items", VList (map (item_to_dict "saved") (md_savings r)))
  ].

(** The default record of the data model: the starter categories, every
    amount 0. *)
Definition default_record : month_data := {|
  md_rollover := pos_zero;
  md_debt := pos_zero;
  md_income := [LineItem (VStr "Paycheck") pos_zero];
  md_bills := [BillItem (VStr "Rent/Mortgage") pos_zero false;
               BillItem (VStr "Utilities") pos_zero false;
               BillItem (VStr "Internet") pos_zero false];
  md_expenses := [LineItem (VStr "Groceries") pos_zero;
                  LineItem (VStr "Dining Out") pos_zero;
                  LineItem (VStr "Transportation") pos_zero];
  md_savings := [LineItem (VStr "Emergency Fund") pos_zero;
                 LineItem (VStr "Retirement") pos_zero]
|}.

(** [f or 0.0] for a float [f]: [f] itself, a zero of either sign read as
    [0.0]. This is how every sum reads a float it finds in a record. *)
Definition or_zero (f : float) : float :=
  if feqb f pos_zero then pos_zero else f.

(** The four sums of a record, as every reader of it computes them. *)
Definition income_sum (r : month_data) : float :=
  pysum (map (λ it, or_zero (i_amount it)) (md_income r)).
Definition bills_sum (r : month_data) : float :=
  pysum (map (λ b, or_zero (b_amount b)) (md_bills r)).
Definition expenses_sum (r : month_data) : float :=
  pysum (map (λ it, or_zero (i_amount it)) (md_expenses r)).
Definition savings_sum (r : month_data) : float :=
  pysum (map (λ it, or_zero (i_amount it)) (md_savings r)).

(** A record read back by [load_month_data]: every float [f] of it has gone
    through [f or 0.0]. *)
Definition reread_item (it : line_item) : line_item :=
  LineItem (i_name it) (or_zero (i_amount it)).
Definition reread_bill (b : bill_item) : bill_item :=
  BillItem (b_name b) (or_zero (b_amount b)) (b_paid b).
Definition reread (r : month_data) : month_data := {|
  md_rollover := or_zero (md_rollover r);
  md_debt := or_zero (md_debt r);
  md_income := map reread_item (md_income r);
  md_bills := map reread_bill (md_bills r);
  md_expenses := map reread_item (md_expenses r);
  md_savings := map reread_item (md_savings r)
|}.

(** ** Reading the store

    [list_saved_months] and [load_month_data] only read: these are their
    results as functions of the directory. *)

(** The month keys [list_saved_months] returns. *)
Definition saved_months (st : store) : list string :=
  sorted_set (omap first_match
    (filter (λ p, glob_budget p = true) (map fst (map_to_list st)))).

(** The year component of a month key [YYYY-MM]: its four digits. *)
Definition year_of (ym : string) : string := String.substring 0 4 ym.

(** A name made of ASCII characters, and a directory of such names. *)
Definition is_ascii (s : string) : bool :=
  forallb (λ c, (Ascii.N_of_ascii c <? 128)%N) (String.list_ascii_of_string s).

Definition ascii_names (st : store) : bool :=
  forallb is_ascii (map fst (map_to_list st)).

(** The months [aggregate_year] loops over. *)
Definition months_of_year (year : Z) (st : store) : list string :=
  filter (λ m, String.prefix (year_prefix year) m = true) (saved_months st).

(** One turn of the loop of [aggregate_year]. *)
Definition load_row `{FloatSyntax} (st : store) (ym : string) : result row :=
  d ← (load_month_data ym st).1; year_row ym d.

(** The row and the totals of a typed record. *)
Definition row_of (ym : string) (r : month_data) : row :=
  Row ym (income_sum r) (expenses_sum r) (bills_sum r) (savings_sum r)
    (or_zero (md_debt r))
    (fsub (fsub (fsub (fsub (income_sum r) (expenses_sum r)) (bills_sum r))
                (savings_sum r)) (or_zero (md_debt r))).

Definition totals_of (r : month_data) : totals :=
  Totals (income_sum r) (bills_sum r) (expenses_sum r) (savings_sum r)
    (or_zero (md_debt r)) (or_zero (md_rollover r))
    (fsub (fsub (fsub (fsub (fadd (income_sum r) (or_zero (md_rollover r)))
                            (expenses_sum r)) (bills_sum r)) (savings_sum r))
          (or_zero (md_debt r))).

Definition with_rollover (ro : float) (r : month_data) : month_data :=
  MonthData ro (md_debt r) (md_income r) (md_bills r) (md_expenses r) (md_savings r).

(** The test [x.get(k) or ...] makes of a field: it is present and true as
    Python tests it, that is not [None], not zero, not [False], not empty.
    A field that holds the number 0 fails the test; a field that holds a
    text that is no number passes it. *)
Definition present_and_true (o : option value) : bool :=
  match o with Some v => Py.truthy v | None => false end.

(** ** Equality of records

    Two floats are the same number when Python's [==] says so, or when they
    are the same value: [==] alone denies NaN to be equal to itself. *)
Definition same_float (x y : float) : Prop := x = y ∨ feqb x y = true.

Definition same_item (a b : line_item) : Prop :=
  i_name a = i_name b ∧ same_float (i_amount a) (i_amount b).

Definition same_bill (a b : bill_item) : Prop :=
  b_name a = b_name b ∧ same_float (b_amount a) (b_amount b) ∧ b_paid a = b_paid b.

(** Field by field. *)
Definition same_record (r1 r2 : month_data) : Prop :=
  same_float (md_rollover r1) (md_rollover r2)
  ∧ same_float (md_debt r1) (md_debt r2)
  ∧ Forall2 same_item (md_income r1) (md_income r2)
  ∧ Forall2 same_bill (md_bills r1) (md_bills r2)
  ∧ Forall2 same_item (md_expenses r1) (md_expenses r2)
  ∧ Forall2 same_item (md_savings r1) (md_savings r2).

(** ** Numbers in raw records *)









(** ** Examples

    A [float(s)] for the examples: the literals that are plain decimal
    integers, with or without a sign. Python's own grammar has more
    (fractions, exponents, [inf], [nan], blanks, underscores); the examples
    use none of it. *)
Fixpoint digits_value (acc : Z) (cs : list Ascii.ascii) : option Z :=
  match cs with
  | [] => Some acc
  | c :: cs' =>
      if is_digit c
      then digits_value (10 * acc + (Z.of_N (Ascii.N_of_ascii c) - 48)) cs'
      else None
  end.

Definition integer_literals : FloatSyntax := λ s,
  match String.list_ascii_of_string s with
  | [] => None
  | c :: cs =>
      if String.eqb (String c EmptyString) "-"
      then match cs with [] => None | _ => SFopp <$> (lit <$> digits_value 0 cs) end
      else lit <$> digits_value 0 (c :: cs)
  end.

(** The record of the worked example: income 3000, rent 1200 under the
    legacy key, groceries 400, savings 200, debt 100, rollover 50. *)
Definition march_raw : value :=
  VDict [
    ("rollover", VFloat (lit 50));
    ("debt", VInt 100);
    ("income_items", VList [VDict [("name", VStr "Paycheck"); ("amount", VInt 3000)]]);
    ("bill_items", VList [VDict [("name", VStr "Rent"); ("actual", VInt 1200)]]);
    ("expense_items", VList [VDict [("name", VStr "Groceries"); ("spent", VFloat (lit 400))]]);
    ("savings_items", VList [VDict [("name", VStr "Emergency"); ("saved", VStr "200")]])
  ].

Definition march_record : month_data := {|
  md_rollover := lit 50;
  md_debt := lit 100;
  md_income := [LineItem (VStr "Paycheck") (lit 3000)];
  md_bills := [BillItem (VStr "Rent") (lit 1200) false];
  md_expenses := [LineItem (VStr "Groceries") (lit 400)];
  md_savings := [LineItem (VStr "Emergency") (lit 200)]
|}.

(** A directory with two months of 2025, an unreadable December 2024 and
    a file that is no month. *)
Definition example_store : store :=
  <["budget_2025-03.json" := Json march_raw]>
    (<["budget_2025-01.json" := Json (VDict [])]>
      (<["budget_2024-12.json" := Malformed]>
        (<["notes.json" := Json VNone]> ∅))).



(** A month with groceries of 400 and a refund of 25 entered as a negative
    expense, as its file has it and as it is loaded; a directory with that
    month as February 2025. *)
Definition refund_raw : value :=
  VDict [
    ("expense_items", VList [
       VDict [("name", VStr "Groceries"); ("spent", VInt 400)];
       VDict [("name", VStr "Refund"); ("spent", VInt (-25))]])
  ].

Definition refund_record : month_data := {|
  md_rollover := pos_zero;
  md_debt := pos_zero;
  md_income := [];
  md_bills := [];
  md_expenses := [LineItem (VStr "Groceries") (lit 400);
                  LineItem (VStr "Refund") (lit (-25))];
  md_savings := []
|}.


(** ** The rest of the script

    The statements of the page that touch month records or the directory,
    beside the functions above. *)

(** [fp.unlink()] *)
Definition unlink (name : string) : io unit :=
  λ st, match st !! name with
        | Some _ => (Ok (), delete name st)
        | None => (Raise FileNotFoundError, st)
        end.

(** The Reset button:
    [fp = get_data_file(m)], then [if fp.exists(): fp.unlink()]. *)
Definition reset_month (month_ym : string) : io unit :=
  let fp := get_data_file month_ym in
  present ← Fs.exists_ fp;
  if (present : bool) then unlink fp else mret ().

(** [data = load_month_data(m)] followed at once by
    [save_month_data(m, data)]: the first and the last statement of a run
    that touch the directory ([# Load data] and [# Auto-save on any
    change]), with nothing in between. *)
Definition autosave `{FloatSyntax} (month_ym : string) : io unit :=
  data ← load_month_data month_ym;
  save_month_data month_ym data.

(** The same two statements with the statements of the page between them,
    for a run that leaves [data] as loaded. [between] stands for whatever
    the run does there (the listing of the months, the years, in the Year
    view [aggregate_year] and the month labels): when it raises, the run
    ends before the save. *)
Definition run_to_save `{FloatSyntax} {A} (between : io A) (month_ym : string)
    : io unit :=
  data ← load_month_data month_ym;
  _ ← between;
  save_month_data month_ym data.

(** The rows of the CSV export, before [to_csv]. *)
Record export_row : Type := ExportRow {
  Category : string;
  Item : value;
  Amount : float
}.

(** One loop of the export: [for item in data.get(key, []):] with
    [{"Category": label, "Item": item.get("name", ""),
      "Amount": float(item.get(field, 0.0) or 0.0)}]. *)
Definition export_category `{FloatSyntax} (data : value) (key field label : string)
  : result (list export_row) :=
  items ← Py.get data key (VList []);
  xs ← Py.iter items;
  for_each (λ item,
    name ← Py.get item "name" (VStr "");
    amount ← float_field item field;
    Ok (ExportRow label name amount)) xs.

Definition export_rows `{FloatSyntax} (data : value) : result (list export_row) :=
  income ← export_category data "income_items" "amount" "Income";
  bills ← export_category data "bill_items" "amount" "Bills";
  expenses ← export_category data "expense_items" "spent" "Expenses";
  savings ← export_category data "savings_items" "saved" "Savings";
  Ok (income ++ bills ++ expenses ++ savings).

(** [max(x, y)] on floats: [y] when [y > x], else [x]. *)
Definition pymax (x y : float) : float := if fltb x y then y else x.

(** The values of the Amount Left chart: [[remaining, spent]] when
    [base > 0], else [[1]]. *)
Definition donut_values (total_income rollover left_amount : float) : list float :=
  let base := pymax (fadd total_income rollover) pos_zero in
  let remaining := pymax left_amount pos_zero in
  let spent := pymax (fsub base remaining) pos_zero in
  if fltb pos_zero base then [remaining; spent] else [lit 1].

(** The amounts the export has under a category label. *)
Definition amounts_of (label : string) (rows : list export_row) : list float :=
  map Amount (filter (λ rw, Category rw = label) rows).

(** The six fields of a stored record, and the fields of its items. *)
Definition record_keys : list string :=
  ["rollover"; "debt"; "income_items"; "bill_items"; "expense_items"; "savings_items"].

(** What a comprehension of the normalization, a sum or the export loops
    over: [for x in d.get(key, [])]. *)
Definition raw_items (d : value) (key : string) : result (list value) :=
  v ← Py.get d key (VList []); Py.iter v.

(** *** The years of the Year view

    [int(s)] has Python's grammar, as [float(s)] has: a parameter, of which
    only this is used, that a text of ASCII digits is read as the decimal
    number it writes. [None] is the [ValueError]. *)
Class IntSyntax := {
  int_of_str : string → option Z;
  int_of_digits : ∀ s, s ≠ "" →
    forallb is_digit (String.list_ascii_of_string s) = true →
    int_of_str s = digits_value 0 (String.list_ascii_of_string s)
}.

Definition py_int `{IntSyntax} (s : string) : result Z :=
  match int_of_str s with Some n => Ok n | None => Raise ValueError end.

(** [s.split("-")[0]]: the text before the first dash, all of [s] when it
    has none. *)
Fixpoint split_head (s : string) : string :=
  match s with
  | EmptyString => EmptyString
  | String c s' =>
      if String.eqb (String c EmptyString) "-" then EmptyString
      else String c (split_head s')
  end.

(** [current_year = int(current_month.split("-")[0])] and
    [sorted({int(m.split("-")[0]) for m in saved_months} | {current_year})]. *)
Definition available_years `{IntSyntax} (saved_months : list string)
    (current_month : string) : result (Z * list Z) :=
  current_year ← py_int (split_head current_month);
  years ← for_each (λ m, py_int (split_head m)) saved_months;
  Ok (current_year, merge_sort Z.le (remove_dups (years ++ [current_year]))).

(** [l.index(x)]: the first place of [x] in [l], [ValueError] when it has
    none. *)
Fixpoint list_index (x : Z) (l : list Z) : result nat :=
  match l with
  | [] => Raise ValueError
  | y :: l' =>
      if bool_decide (y = x) then Ok 0%nat
      else i ← list_index x l'; Ok (S i)
  end.

(** The decimal digits, and the four-digit texts checked one by one: the
    number a text writes is written back as that text exactly when the
    text does not start with a zero. *)
Definition digit_chars : list Ascii.ascii :=
  map (λ n, Ascii.ascii_of_nat (48 + n)) (seq 0 10).

Definition year_text_ok (y1 y2 y3 y4 : Ascii.ascii) : bool :=
  match digits_value 0 [y1; y2; y3; y4] with
  | Some n =>
      Bool.eqb
        (String.eqb (pretty n)
           (String y1 (String y2 (String y3 (String y4 EmptyString)))))
        (negb (String.eqb (String y1 EmptyString) "0"))
  | None => false
  end.

Definition year_texts_ok : bool :=
  forallb (λ y1, forallb (λ y2, forallb (λ y3, forallb (λ y4,
    year_text_ok y1 y2 y3 y4) digit_chars) digit_chars) digit_chars) digit_chars.

(** An [int(s)] for the examples: texts of ASCII digits and nothing else. *)
Definition digit_texts : IntSyntax := {|
  int_of_str s :=
    match s with
    | EmptyString => None
    | String _ _ => digits_value 0 (String.list_ascii_of_string s)
    end;
  int_of_digits s :=
    match s with
    | EmptyString => λ Hne _, False_ind _ (Hne eq_refl)
    | String _ _ => λ _ _, eq_refl
    end
|}.

(** ** Results and loops *)

Lemma bind_ok_inv {A B} (m : result A) (k : A → result B) (b : B) :
  (m ≫= k) = Ok b → ∃ a, m = Ok a ∧ k a = Ok b.
Proof. destruct m as [a|e]; simpl; [eauto | discriminate]. Qed.

Ltac bind_inv H :=
  let a := fresh "a" in
  let Ha := fresh "Ha" in
  apply bind_ok_inv in H as (a & Ha & H).

Lemma for_each_map {A B} (f : A → result B) (g : A → B) (xs : list A) :
  Forall (λ x, f x = Ok (g x)) xs → for_each f xs = Ok (map g xs).
Proof.
  induction 1 as [|x xs Hx _ IH]; simpl; [done|].
  by rewrite Hx, IH.
Qed.

Lemma for_each_ok_inv {A B} (f : A → result B) (xs : list A) (ys : list B) :
  for_each f xs = Ok ys → Forall2 (λ x y, f x = Ok y) xs ys.
Proof.
  revert ys. induction xs as [|x xs IH]; intros ys Hys; simpl in Hys.
  - injection Hys as <-. constructor.
  - bind_inv Hys. bind_inv Hys. injection Hys as <-.
    constructor; auto.
Qed.

Lemma for_each_ok {A B} (f : A → result B) (xs : list A) :
  Forall (λ x, is_ok (f x) = true) xs → ∃ ys, for_each f xs = Ok ys.
Proof.
  induction 1 as [|x xs Hx _ [ys IH]]; simpl; [eauto|].
  destruct (f x) as [y|]; [|done]. rewrite IH. simpl. eauto.
Qed.

(** ** Floats *)

Lemma feqb_zero_inv (f : float) :
  feqb f pos_zero = true → f = pos_zero ∨ f = neg_zero.
Proof. destruct f as [[]|[]| |[]]; simpl; intros; try done; auto. Qed.



Lemma or_zero_idemp (f : float) : or_zero (or_zero f) = or_zero f.
Proof. unfold or_zero. destruct (feqb f pos_zero) eqn:E; [done|]. by rewrite E. Qed.

Lemma float_or_zero `{FloatSyntax} (f : float) :
  Py.float_ (Py.or_ (VFloat f) (VFloat pos_zero)) = Ok (or_zero f).
Proof. unfold Py.or_, or_zero. simpl. by destruct (feqb f pos_zero). Qed.

(** ** The program on typed records *)

Section OnRecords.
Context `{FloatSyntax}.

Lemma float_field_float (kvs : list (string * value)) (key : string) (f : float) :
  Py.lookup_key key kvs = Some (VFloat f) →
  float_field (VDict kvs) key = Ok (or_zero f).
Proof.
  intros Hk. unfold float_field. simpl. rewrite Hk. simpl.
  apply float_or_zero.
Qed.

Lemma float_field_absent (kvs : list (string * value)) (key : string) :
  Py.lookup_key key kvs = None ∨ Py.lookup_key key kvs = Some VNone →
  float_field (VDict kvs) key = Ok pos_zero.
Proof. intros [Hk|Hk]; unfold float_field; simpl; rewrite Hk; done. Qed.

Lemma lookup_item_field (key : string) (it : line_item) :
  key ≠ "name" →
  Py.lookup_key key [("name", i_name it); (key, VFloat (i_amount it))]
  = Some (VFloat (i_amount it)).
Proof.
  intros Hkey. simpl.
  apply String.eqb_neq in Hkey as ->. by rewrite String.eqb_refl.
Qed.

Lemma float_field_item (key : string) (it : line_item) :
  key ≠ "name" →
  float_field (item_to_dict key it) key = Ok (or_zero (i_amount it)).
Proof. intros Hkey. by apply float_field_float, lookup_item_field. Qed.

Lemma float_field_bill (b : bill_item) :
  float_field (bill_to_dict b) "amount" = Ok (or_zero (b_amount b)).
Proof. by apply float_field_float. Qed.

Lemma sum_items (key : string) (its : list line_item) :
  key ≠ "name" →
  for_each (λ x, float_field x key) (map (item_to_dict key) its)
  = Ok (map (λ it, or_zero (i_amount it)) its).
Proof.
  intros Hkey. induction its as [|it its IH]; simpl; [done|].
  rewrite float_field_item by done. simpl. by rewrite IH.
Qed.

Lemma sum_bills (bs : list bill_item) :
  for_each (λ x, float_field x "amount") (map bill_to_dict bs)
  = Ok (map (λ b, or_zero (b_amount b)) bs).
Proof.
  induction bs as [|b bs IH]; simpl; [done|].
  rewrite float_field_bill. simpl. by rewrite IH.
Qed.

Lemma calculate_totals_to_dict (r : month_data) :
  calculate_totals (to_dict r) = Ok (totals_of r).
Proof.
  unfold calculate_totals, sum_field. simpl.
  rewrite !sum_items by done. rewrite sum_bills. simpl.
  unfold float_field. simpl. rewrite !float_or_zero. done.
Qed.

Lemma year_row_to_dict (ym : string) (r : month_data) :
  year_row ym (to_dict r) = Ok (row_of ym r).
Proof.
  unfold year_row, sum_field. simpl.
  rewrite !sum_items by done. rewrite sum_bills. simpl.
  unfold float_field. simpl. rewrite !float_or_zero. done.
Qed.

(** Whatever the data, totals that are returned obey the formula. *)
Lemma calculate_totals_formula (data : value) (t : totals) :
  calculate_totals data = Ok t →
  left_amount t =
    fsub (fsub (fsub (fsub (fadd (total_income t) (rollover t))
                           (total_expenses t)) (total_bills t))
               (total_savings t)) (total_debt t).
Proof.
  unfold calculate_totals. intros Ht.
  do 6 bind_inv Ht. by injection Ht as <-.
Qed.

Lemma year_row_formula (ym : string) (d : value) (rw : row) :
  year_row ym d = Ok rw →
  Month rw = ym
  ∧ Left rw = fsub (fsub (fsub (fsub (Income rw) (Expenses rw)) (Bills rw))
                         (Saved rw)) (Debt rw).
Proof.
  unfold year_row. intros Hrw.
  do 5 bind_inv Hrw. by injection Hrw as <-.
Qed.

End OnRecords.

(** ** Normalization *)

Section Normalization.
Context `{FloatSyntax}.

Lemma normalize_item_shape (key : string) (x y : value) :
  normalize_item key x = Ok y → ∃ it, y = item_to_dict key it.
Proof.
  unfold normalize_item. intros Hy.
  bind_inv Hy. bind_inv Hy. injection Hy as <-.
  by exists (LineItem a a0).
Qed.

Lemma normalize_bill_shape (x y : value) :
  normalize_bill x = Ok y → ∃ b, y = bill_to_dict b.
Proof.
  unfold normalize_bill. intros Hy.
  bind_inv Hy. bind_inv Hy. bind_inv Hy. injection Hy as <-.
  by exists (BillItem a a0 (Py.truthy a1)).
Qed.

Lemma for_each_shape {A} (f : value → result value) (g : A → value)
    (xs ys : list value) :
  (∀ x y, f x = Ok y → ∃ a, y = g a) →
  for_each f xs = Ok ys → ∃ its, ys = map g its.
Proof.
  intros Hf Hys. apply for_each_ok_inv in Hys.
  induction Hys as [|x y xs ys Hxy _ [its ->]].
  - by exists [].
  - destruct (Hf _ _ Hxy) as [a ->]. by exists (a :: its).
Qed.

(** Whatever [normalize] returns is a typed record. *)
Lemma normalize_shape (d out : value) :
  normalize d = Ok out → ∃ r, out = to_dict r.
Proof.
  unfold normalize. intros Hout.
  bind_inv Hout. rename a into rollover.
  bind_inv Hout. rename a into debt.
  bind_inv Hout. bind_inv Hout. bind_inv Hout.
  apply (for_each_shape _ (item_to_dict "amount")) in Ha3 as [income ->];
    [|apply normalize_item_shape].
  bind_inv Hout. bind_inv Hout. bind_inv Hout.
  apply (for_each_shape _ bill_to_dict) in Ha5 as [bills ->];
    [|apply normalize_bill_shape].
  bind_inv Hout. bind_inv Hout. bind_inv Hout.
  apply (for_each_shape _ (item_to_dict "spent")) in Ha7 as [expenses ->];
    [|apply normalize_item_shape].
  bind_inv Hout. bind_inv Hout. bind_inv Hout.
  apply (for_each_shape _ (item_to_dict "saved")) in Ha9 as [savings ->];
    [|apply normalize_item_shape].
  injection Hout as <-.
  by exists (MonthData rollover debt income bills expenses savings).
Qed.

Lemma default_month_data_to_dict : default_month_data = to_dict default_record.
Proof. reflexivity. Qed.

Lemma normalize_item_to_dict (key : string) (it : line_item) :
  key ≠ "name" →
  normalize_item key (item_to_dict key it) = Ok (item_to_dict key (reread_item it)).
Proof.
  intros Hkey. unfold normalize_item.
  rewrite float_field_item by done. done.
Qed.

Lemma bill_amount_to_dict (b : bill_item) :
  bill_amount (bill_to_dict b) = Ok (or_zero (b_amount b)).
Proof.
  unfold bill_amount, or_zero. simpl.
  destruct (feqb (b_amount b) pos_zero); done.
Qed.

Lemma normalize_bill_to_dict (b : bill_item) :
  normalize_bill (bill_to_dict b) = Ok (bill_to_dict (reread_bill b)).
Proof.
  unfold normalize_bill. rewrite bill_amount_to_dict. reflexivity.
Qed.

Lemma for_each_to_dict {A} (f : value → result value) (g : A → value)
    (h : A → A) (its : list A) :
  (∀ a, f (g a) = Ok (g (h a))) →
  for_each f (map g its) = Ok (map g (map h its)).
Proof.
  intros Hf. induction its as [|a its IH]; simpl; [done|].
  by rewrite Hf, IH.
Qed.

(** Normalizing a record that is already one only re-reads its floats. *)
Lemma normalize_to_dict (r : month_data) :
  normalize (to_dict r) = Ok (to_dict (reread r)).
Proof.
  unfold normalize. simpl.
  unfold float_field. simpl. rewrite !float_or_zero. simpl.
  rewrite !(for_each_to_dict _ _ reread_item)
    by (intros; by apply normalize_item_to_dict).
  rewrite (for_each_to_dict _ _ reread_bill) by apply normalize_bill_to_dict.
  done.
Qed.

Lemma reread_idemp (r : month_data) : reread (reread r) = reread r.
Proof.
  destruct r as [ro de inc bi ex sa]. unfold reread. simpl.
  rewrite !or_zero_idemp. f_equal; rewrite map_map; apply map_ext;
    intros []; unfold reread_item, reread_bill; simpl; by rewrite or_zero_idemp.
Qed.

End Normalization.

(** ** The store *)

Section Store.
Context `{FloatSyntax}.

Lemma load_absent (k : string) (st : store) :
  st !! get_data_file k = None →
  load_month_data k st = (Ok default_month_data, st).
Proof.
  intros Hk. unfold load_month_data, Fs.exists_. simpl.
  unfold mbind, io_bind. rewrite bool_decide_eq_false_2; [done|].
  rewrite Hk. by intros [? ?].
Qed.

Lemma load_json (k : string) (st : store) (d : value) :
  st !! get_data_file k = Some (Json d) →
  load_month_data k st = (normalize d, st).
Proof.
  intros Hk. unfold load_month_data, Fs.exists_, Fs.json_load. simpl.
  unfold mbind, io_bind. rewrite bool_decide_eq_true_2 by (rewrite Hk; eauto).
  rewrite Hk. unfold lift. by destruct (normalize d).
Qed.

Lemma load_malformed (k : string) (st : store) :
  st !! get_data_file k = Some Malformed →
  load_month_data k st = (Raise JSONDecodeError, st).
Proof.
  intros Hk. unfold load_month_data, Fs.exists_, Fs.json_load. simpl.
  unfold mbind, io_bind. rewrite bool_decide_eq_true_2 by (rewrite Hk; eauto).
  by rewrite Hk.
Qed.

(** Loading never writes. *)
Lemma load_store (k : string) (st : store) : (load_month_data k st).2 = st.
Proof.
  destruct (st !! get_data_file k) as [[d|]|] eqn:Hk.
  - by rewrite (load_json _ _ d).
  - by rewrite load_malformed.
  - by rewrite load_absent.
Qed.

Lemma is_digit_separator (c : Ascii.ascii) :
  is_digit c = true →
  Ascii.eqb c (Ascii.Ascii true true true true false true false false) = false.
Proof.
  intros Hc.
  destruct (Ascii.eqb_spec c (Ascii.Ascii true true true true false true false false))
    as [->|]; [|reflexivity].
  vm_compute in Hc. discriminate.
Qed.

(** The file of a month key lies in the directory itself. *)
Lemma month_file_flat (k : string) :
  is_month_key k = true → Fs.has_separator (get_data_file k) = false.
Proof.
  unfold is_month_key.
  destruct k as [|y1 [|y2 [|y3 [|y4 [|d [|m1 [|m2 [|? ?]]]]]]]];
    simpl; try discriminate.
  rewrite !andb_true_iff. intros [[[[[[? ?] ?] ?] Hd] ?] ?].
  destruct (Ascii.eqb d _) eqn:E in Hd; [|discriminate].
  apply Ascii.eqb_eq in E as ->.
  unfold Fs.has_separator, get_data_file. simpl.
  rewrite !is_digit_separator by done. reflexivity.
Qed.

Lemma save_store (k : string) (data : value) (st : store) :
  is_month_key k = true →
  save_month_data k data st = (Ok (), <[get_data_file k := Json data]> st).
Proof.
  intros Hk. unfold save_month_data, Fs.json_dump.
  by rewrite month_file_flat.
Qed.

End Store.

(** ** Month keys *)

Lemma is_digit_dash (c : Ascii.ascii) :
  is_digit c = true → c ≠ Ascii.ascii_of_nat 45.
Proof. intros Hc ->. vm_compute in Hc. discriminate. Qed.

Lemma month_key_inv (m : string) :
  is_month_key m = true →
  ∃ y1 y2 y3 y4 m1 m2,
    m = String y1 (String y2 (String y3 (String y4
          (String (Ascii.ascii_of_nat 45) (String m1 (String m2 EmptyString))))))
    ∧ Forall (λ c, is_digit c = true) [y1; y2; y3; y4; m1; m2].
Proof.
  unfold is_month_key.
  destruct m as [|y1 [|y2 [|y3 [|y4 [|d [|m1 [|m2 [|? ?]]]]]]]];
    simpl; try discriminate.
  rewrite !andb_true_iff. intros [[[[[[? ?] ?] ?] Hd] ?] ?].
  destruct (Ascii.eqb d _) eqn:E in Hd; [|discriminate].
  apply Ascii.eqb_eq in E as ->.
  exists y1, y2, y3, y4, m1, m2. split; [done|]. repeat constructor; done.
Qed.

Lemma prefix_cons (a b : Ascii.ascii) (s1 s2 : string) :
  String.prefix (String a s1) (String b s2) = true
  ↔ a = b ∧ String.prefix s1 s2 = true.
Proof.
  simpl. destruct (Ascii.ascii_dec a b) as [->|Hne]; [tauto|].
  split; [done|]. by intros [? _].
Qed.

Lemma prefix_empty (s : string) : String.prefix s "" = true ↔ s = "".
Proof. destruct s; simpl; split; intros; done. Qed.

Lemma append_cons (c : Ascii.ascii) (s t : string) :
  String c s +:+ t = String c (s +:+ t).
Proof. reflexivity. Qed.

Lemma append_empty (t : string) : "" +:+ t = t.
Proof. reflexivity. Qed.

(** On a month key, [m.startswith(s + "-")] says that the year component
    of [m] is [s]. *)
Lemma prefix_year (s m : string) :
  is_month_key m = true →
  String.prefix (s +:+ "-") m = true ↔ year_of m = s.
Proof.
  intros (y1 & y2 & y3 & y4 & m1 & m2 & -> & Hd)%month_key_inv.
  unfold year_of. simpl String.substring.
  repeat (apply Forall_cons in Hd as [? Hd]).
  split.
  - intros Hp.
    destruct s as [|c1 [|c2 [|c3 [|c4 [|c5 [|c6 [|c7 s]]]]]]];
      rewrite ?append_cons, ?append_empty in Hp;
      rewrite ?prefix_cons, ?prefix_empty in Hp;
      destruct_and?; simplify_eq;
      try match goal with
          | H : is_digit (Ascii.ascii_of_nat 45) = true |- _ =>
              by apply is_digit_dash in H
          end.
    + done.
    + destruct s; done.
  - intros <-. rewrite ?append_cons, ?append_empty, ?prefix_cons. done.
Qed.

Lemma match_here_key (s key : string) :
  match_here s = Some key → is_month_key key = true.
Proof.
  unfold match_here.
  destruct (String.prefix _ _ && is_month_key _ && _) eqn:E; [|done].
  intros [= <-]. by apply andb_prop in E as [[_ ?]%andb_prop _].
Qed.

Lemma first_match_key (name key : string) :
  first_match name = Some key → is_month_key key = true.
Proof.
  induction name as [|c name IH]; simpl; [done|].
  destruct (match_here (String c name)) eqn:E; [|done].
  intros [= <-]. by eapply match_here_key.
Qed.

(** ** Sorted lists *)

Lemma strongly_sorted_strict {A} (R : relation A) `{!PartialOrder R} (l : list A) :
  StronglySorted R l → NoDup l → StronglySorted (strict R) l.
Proof.
  induction 1 as [|x l Hl IH Hx]; intros Hnd; [constructor|].
  apply NoDup_cons in Hnd as [Hxl Hnd].
  constructor; [by apply IH|].
  apply Forall_forall. intros y Hy. rewrite Forall_forall in Hx.
  split; [by apply Hx|]. intros Hyx.
  assert (x = y) as -> by (apply (anti_symm R); auto). done.
Qed.


(** ** Listing and aggregating *)

Section Listing.
Context `{FloatSyntax}.

Lemma list_saved_months_eq (st : store) :
  list_saved_months st = (Ok (saved_months st), st).
Proof. reflexivity. Qed.

Lemma saved_months_keys (st : store) (m : string) :
  m ∈ saved_months st → is_month_key m = true.
Proof.
  unfold saved_months, sorted_set. rewrite merge_sort_Permutation.
  rewrite elem_of_remove_dups, list_elem_of_omap.
  intros (name & _ & Hm). by eapply first_match_key.
Qed.

Lemma saved_months_sorted (st : store) :
  StronglySorted (strict String.le) (saved_months st).
Proof.
  unfold saved_months, sorted_set. apply strongly_sorted_strict; [apply _| |].
  - apply StronglySorted_merge_sort; apply _.
  - rewrite merge_sort_Permutation. apply NoDup_remove_dups.
Qed.

Lemma months_of_year_spec (year : Z) (st : store) (m : string) :
  m ∈ months_of_year year st ↔ m ∈ saved_months st ∧ year_of m = pretty year.
Proof.
  unfold months_of_year. rewrite list_elem_of_filter. unfold year_prefix.
  split.
  - intros [Hp Hm]. split; [done|].
    by apply prefix_year; [eapply saved_months_keys|].
  - intros [Hm Hy]. split; [|done].
    by apply prefix_year; [eapply saved_months_keys|].
Qed.

Lemma io_for_each_pure {A B} (f : A → io B) (g : A → result B)
    (xs : list A) (st : store) :
  (∀ x, f x st = (g x, st)) → io_for_each f xs st = (for_each g xs, st).
Proof.
  intros Hf. induction xs as [|x xs IH]; simpl; [done|].
  unfold mbind at 1, io_bind. rewrite Hf.
  destruct (g x) as [y|e]; simpl; [|done].
  unfold mbind at 1, io_bind. rewrite IH. by destruct (for_each g xs).
Qed.

Lemma aggregate_year_eq (year : Z) (st : store) :
  aggregate_year year st = (for_each (load_row st) (months_of_year year st), st).
Proof.
  unfold aggregate_year. unfold mbind at 1, io_bind.
  rewrite list_saved_months_eq.
  apply io_for_each_pure. intros ym. unfold mbind, io_bind, load_row.
  pose proof (load_store ym st) as Hst.
  destruct (load_month_data ym st) as [[d|e] st']; simpl in *; by subst.
Qed.

(** What a load returns is a typed record. *)
Lemma load_typed (k : string) (st : store) (d : value) :
  (load_month_data k st).1 = Ok d → ∃ r, d = to_dict r.
Proof.
  destruct (st !! get_data_file k) as [[raw|]|] eqn:Hk.
  - rewrite (load_json _ _ raw) by done. simpl. apply normalize_shape.
  - by rewrite load_malformed.
  - rewrite load_absent by done. simpl. intros [= <-]. by exists default_record.
Qed.

Lemma load_row_inv (st : store) (ym : string) (rw : row) :
  load_row st ym = Ok rw →
  ∃ r, (load_month_data ym st).1 = Ok (to_dict r) ∧ rw = row_of ym r.
Proof.
  unfold load_row. intros Hrw. bind_inv Hrw.
  destruct (load_typed _ _ _ Ha) as [r ->]. exists r. split; [done|].
  rewrite year_row_to_dict in Hrw. by injection Hrw.
Qed.


(** The rows of a year, month by month. *)
Lemma aggregate_year_rows (year : Z) (st : store) (rows : list row) :
  (aggregate_year year st).1 = Ok rows →
  Forall2 (λ ym rw, ∃ r, (load_month_data ym st).1 = Ok (to_dict r)
                         ∧ rw = row_of ym r)
    (months_of_year year st) rows.
Proof.
  rewrite aggregate_year_eq. simpl. intros Hrows%for_each_ok_inv.
  eapply Forall2_impl; [done|]. intros ym rw. apply load_row_inv.
Qed.

Lemma rows_months (st : store) (months : list string) (rows : list row) :
  Forall2 (λ ym rw, ∃ r, (load_month_data ym st).1 = Ok (to_dict r)
                         ∧ rw = row_of ym r) months rows →
  map Month rows = months.
Proof.
  induction 1 as [|ym rw months rows (r & _ & ->) _ IH]; simpl; [done|].
  by rewrite IH.
Qed.

End Listing.

(** ** Numbers kept and numbers accepted *)

Lemma feqb_refl (x : float) : is_nan x = false → feqb x x = true.
Proof.
  destruct x as [[]|[]| |[] m e]; try done; intros _;
    unfold feqb, SFeqb, SFcompare;
    rewrite Z.compare_refl, Pos.compare_cont_refl; done.
Qed.

(** On numbers, [same_float] is Python's [==]. *)
Lemma same_float_eq (x y : float) :
  is_nan x = false → same_float x y ↔ feqb x y = true.
Proof.
  intros Hx. split; [|by right].
  intros [<-|?]; [by apply feqb_refl|done].
Qed.

Lemma same_float_or_zero (f : float) : same_float (or_zero f) f.
Proof.
  unfold same_float, or_zero. destruct (feqb f pos_zero) eqn:E; [|by left].
  right. apply feqb_zero_inv in E as [->| ->]; done.
Qed.

Lemma reread_same (r : month_data) : same_record (reread r) r.
Proof.
  unfold same_record, reread. simpl.
  repeat split; try apply same_float_or_zero;
    apply Forall2_fmap_l, Forall_Forall2_diag, Forall_forall; intros x _;
    repeat split; apply same_float_or_zero.
Qed.



Section Numbers.
Context `{FloatSyntax}.







End Numbers.

Section Pieces.
Context `{FloatSyntax}.



End Pieces.

(** ** The worked example *)

Example march_normalized :
  @normalize integer_literals march_raw = Ok (to_dict march_record).
Proof. vm_compute. reflexivity. Qed.

Example march_totals :
  @calculate_totals integer_literals (to_dict march_record)
  = Ok (Totals (lit 3000) (lit 1200) (lit 400) (lit 200) (lit 100) (lit 50) (lit 1150)).
Proof. vm_compute. reflexivity. Qed.

Example example_saved_months :
  (list_saved_months example_store).1 = Ok ["2024-12"; "2025-01"; "2025-03"].
Proof. vm_compute. reflexivity. Qed.

(** * The claims *)

Section Claims.
Context `{FloatSyntax}.

(** C1. For every month record, [calculate_totals] returns the four sums of
    the record's item fields, [total_debt] and [rollover] as the record has
    them, and [left_amount = total_income + rollover - total_expenses -
    total_bills - total_savings - total_debt]. Each float is read as the
    code reads it, [f or 0.0]: the value itself, a zero of either sign
    taken as [0.0]. *)
Theorem calculate_totals_left (r : month_data) :
  ∃ t, calculate_totals (to_dict r) = Ok t
    ∧ total_income t = pysum (map (λ it, or_zero (i_amount it)) (md_income r))
    ∧ total_bills t = pysum (map (λ b, or_zero (b_amount b)) (md_bills r))
    ∧ total_expenses t = pysum (map (λ it, or_zero (i_amount it)) (md_expenses r))
    ∧ total_savings t = pysum (map (λ it, or_zero (i_amount it)) (md_savings r))
    ∧ total_debt t = or_zero (md_debt r)
    ∧ rollover t = or_zero (md_rollover r)
    ∧ left_amount t =
        fsub (fsub (fsub (fsub (fadd (total_income t) (rollover t))
                               (total_expenses t)) (total_bills t))
                   (total_savings t)) (total_debt t).
Proof.
  exists (totals_of r). split; [apply calculate_totals_to_dict|].
  repeat split.
Qed.

(** C3. For a month key with no stored file, [load_month_data] returns
    the default record: income "Paycheck", three bills, three expense
    categories, two savings categories, rollover 0, debt 0, every amount 0. *)
Theorem load_absent_default (k : string) (st : store) :
  st !! get_data_file k = None →
  (load_month_data k st).1 = Ok (to_dict default_record)
  ∧ md_rollover default_record = pos_zero
  ∧ md_debt default_record = pos_zero
  ∧ map i_name (md_income default_record) = [VStr "Paycheck"]
  ∧ length (md_bills default_record) = 3%nat
  ∧ length (md_expenses default_record) = 3%nat
  ∧ length (md_savings default_record) = 2%nat
  ∧ Forall (λ it, i_amount it = pos_zero)
      (md_income default_record ++ md_expenses default_record
       ++ md_savings default_record)
  ∧ Forall (λ b, b_amount b = pos_zero ∧ b_paid b = false)
      (md_bills default_record).
Proof.
  intros Hk. rewrite load_absent by done.
  repeat split; repeat constructor.
Qed.

(** C4, as the code has it. The amount of a normalized bill is
    [float(...)] of the item's [amount] when that is present and true as
    Python tests it (not [None], not zero, not [False], not empty), and
    the conversion raises when it is no number. The legacy [actual] is
    used exactly when [amount] is missing or false, a stored 0 included:
    then the amount is [float(...)] of [actual] when that is present and
    true, and 0.0 when [actual] is missing or false too. *)
Theorem bill_amount_legacy (kvs : list (string * value)) :
  (∀ a, Py.lookup_key "amount" kvs = Some a → Py.truthy a = true →
        bill_amount (VDict kvs) = Py.float_ a)
  ∧ (present_and_true (Py.lookup_key "amount" kvs) = false →
     ∀ b, Py.lookup_key "actual" kvs = Some b → Py.truthy b = true →
          bill_amount (VDict kvs) = Py.float_ b)
  ∧ (present_and_true (Py.lookup_key "amount" kvs) = false →
     present_and_true (Py.lookup_key "actual" kvs) = false →
     bill_amount (VDict kvs) = Ok pos_zero)
  ∧ normalize_bill (VDict kvs) =
      (amount ← bill_amount (VDict kvs);
       Ok (bill_to_dict
             (BillItem (default (VStr "") (Py.lookup_key "name" kvs)) amount
                (Py.truthy (default (VBool false) (Py.lookup_key "paid" kvs)))))).
Proof.
  unfold bill_amount, present_and_true. simpl. repeat split.
  - intros a -> Ha. simpl. by rewrite Ha.
  - intros Hamount b -> Hb.
    destruct (Py.lookup_key "amount" kvs) as [a|]; simpl in *;
      rewrite ?Hamount; simpl; unfold Py.or_; by rewrite Hb.
  - intros Hamount Hactual.
    destruct (Py.lookup_key "amount" kvs) as [a|]; simpl in *;
      rewrite ?Hamount; simpl; unfold Py.or_;
      destruct (Py.lookup_key "actual" kvs) as [b|]; simpl in *;
      rewrite ?Hactual; done.
Qed.

(** C8. When the file of a month exists and does not parse, the load
    raises the decode error: it does not return the default record, nor
    any record, and the file stays as it is. *)
Theorem load_malformed_raises (k : string) (st : store) :
  st !! get_data_file k = Some Malformed →
  load_month_data k st = (Raise JSONDecodeError, st)
  ∧ (load_month_data k st).1 ≠ Ok default_month_data
  ∧ ∀ d, (load_month_data k st).1 ≠ Ok d.
Proof.
  intros Hk. rewrite load_malformed by done. done.
Qed.

(** C9. Loading a month that has no file writes nothing: the directory is
    the same after the load, and so are the saved months. *)
Theorem load_absent_reads_only (k : string) (st : store) :
  st !! get_data_file k = None →
  load_month_data k st = (Ok default_month_data, st)
  ∧ list_saved_months (load_month_data k st).2 = list_saved_months st.
Proof.
  intros Hk. split; [by apply load_absent|]. by rewrite load_store.
Qed.

(** C5. Every row of [aggregate_year] has [Left = Income - Expenses -
    Bills - Saved - Debt]. The rollover of the month's record is no part
    of it: the row is the same whatever rollover the record has, while the
    monthly [left_amount] of that record is the same sums with the rollover
    added to the income. *)
Theorem aggregate_year_left (year : Z) (st : store) (rows : list row) :
  (aggregate_year year st).1 = Ok rows →
  Forall (λ rw,
    Left rw = fsub (fsub (fsub (fsub (Income rw) (Expenses rw)) (Bills rw))
                         (Saved rw)) (Debt rw)
    ∧ ∃ r, (load_month_data (Month rw) st).1 = Ok (to_dict r)
        ∧ (∀ ro, year_row (Month rw) (to_dict (with_rollover ro r)) = Ok rw)
        ∧ ∃ t, calculate_totals (to_dict r) = Ok t
            ∧ rollover t = or_zero (md_rollover r)
            ∧ left_amount t =
                fsub (fsub (fsub (fsub (fadd (Income rw) (rollover t))
                                       (Expenses rw)) (Bills rw))
                           (Saved rw)) (Debt rw)) rows.
Proof.
  intros Hrows%aggregate_year_rows.
  induction Hrows as [|ym rw months rows (r & Hr & ->) _ IH]; constructor; [|done].
  split; [done|]. exists r. split; [done|]. split.
  - intros ro. by rewrite year_row_to_dict.
  - exists (totals_of r). by rewrite calculate_totals_to_dict.
Qed.

(** C7. Save a normalized record under a month key and load that key: the
    save succeeds, and the load returns the record with every float [f]
    read back as [f or 0.0], which is field by field the same record. *)
Theorem save_then_load (k : string) (raw n : value) (st : store) :
  is_month_key k = true →
  normalize raw = Ok n →
  ∃ r, n = to_dict r
    ∧ (save_month_data k n st).1 = Ok ()
    ∧ load_month_data k (save_month_data k n st).2
      = (Ok (to_dict (reread r)), (save_month_data k n st).2)
    ∧ same_record (reread r) r.
Proof.
  intros Hk [r ->]%normalize_shape. exists r. split; [done|].
  rewrite save_store by done. simpl. split; [done|].
  split; [|apply reread_same].
  rewrite (load_json _ _ (to_dict r)) by apply lookup_insert_eq.
  by rewrite normalize_to_dict.
Qed.


End Claims.

(** * The claims on the examples *)

(** July 2025 has no file in the example directory: the load returns the
    default record. *)
Lemma load_absent_default_example :
  example_store !! get_data_file "2025-07" = None
  ∧ (@load_month_data integer_literals "2025-07" example_store).1
    = Ok (to_dict default_record).
Proof.
  assert (Hk : example_store !! get_data_file "2025-07" = None)
    by (vm_compute; reflexivity).
  split; [exact Hk|].
  exact (proj1 (@load_absent_default integer_literals "2025-07" example_store Hk)).
Defined.

(** ... and the directory is as it was. *)
Lemma load_absent_reads_only_example :
  example_store !! get_data_file "2025-07" = None
  ∧ list_saved_months (@load_month_data integer_literals "2025-07" example_store).2
    = list_saved_months example_store.
Proof.
  assert (Hk : example_store !! get_data_file "2025-07" = None)
    by (vm_compute; reflexivity).
  split; [exact Hk|].
  exact (proj2 (@load_absent_reads_only integer_literals "2025-07" example_store Hk)).
Defined.

(** December 2024 does not parse: the load raises. *)
Lemma load_malformed_raises_example :
  example_store !! get_data_file "2024-12" = Some Malformed
  ∧ @load_month_data integer_literals "2024-12" example_store
    = (Raise JSONDecodeError, example_store).
Proof.
  assert (Hk : example_store !! get_data_file "2024-12" = Some Malformed)
    by (vm_compute; reflexivity).
  split; [exact Hk|].
  exact (proj1 (@load_malformed_raises integer_literals "2024-12" example_store Hk)).
Defined.

(** The bill of the worked example has its amount under [actual]. *)
Lemma bill_amount_legacy_example :
  @bill_amount integer_literals
    (VDict [("name", VStr "Rent"); ("actual", VInt 1200)])
  = Ok (lit 1200).
Proof.
  exact (proj1 (proj2 (@bill_amount_legacy integer_literals
                         [("name", VStr "Rent"); ("actual", VInt 1200)]))
           eq_refl (VInt 1200) eq_refl eq_refl).
Defined.

(** C4, as stated, fails. A bill with an [amount] of 0 and an [actual] of
    1200 has a usable amount, a number, and yet its normalized amount is
    the 1200.0 of [actual]. A bill whose [amount] is a text that is no
    number has no usable amount, and yet [actual] is not tried: the
    conversion raises. *)
Lemma bill_amount_zero_or_text :
  @bill_amount integer_literals (VDict [("amount", VInt 0); ("actual", VInt 1200)])
  = Ok (lit 1200)
  ∧ @bill_amount integer_literals
      (VDict [("amount", VStr "abc"); ("actual", VInt 1200)])
    = Raise ValueError.
Proof. split; vm_compute; reflexivity. Qed.

(** The rows of 2025 in the example directory. *)
Lemma example_rows :
  (@aggregate_year integer_literals 2025 example_store).1
  = Ok [row_of "2025-01" (MonthData pos_zero pos_zero [] [] [] []);
        row_of "2025-03" march_record].
Proof. vm_compute. reflexivity. Qed.

Lemma aggregate_year_left_example :
  Forall (λ rw,
    Left rw = fsub (fsub (fsub (fsub (Income rw) (Expenses rw)) (Bills rw))
                         (Saved rw)) (Debt rw))
    [row_of "2025-01" (MonthData pos_zero pos_zero [] [] [] []);
     row_of "2025-03" march_record].
Proof.
  eapply Forall_impl;
    [exact (@aggregate_year_left integer_literals 2025 example_store _ example_rows)|].
  intros rw [Hleft _]. exact Hleft.
Defined.


(** The worked example, saved as March 2025 and loaded again. *)
Lemma save_then_load_example :
  ∃ r, to_dict march_record = to_dict r
    ∧ same_record (reread r) r.
Proof.
  destruct (@save_then_load integer_literals "2025-03" march_raw
              (to_dict march_record) example_store eq_refl march_normalized)
    as (r & Hr & _ & _ & Hsame).
  exists r. split; [exact Hr | exact Hsame].
Defined.

(** * More of the code

    Properties of the store, of normalization and of the statements of the
    page, beside the claims. *)

Ltac bind_as H x Hx := apply bind_ok_inv in H as (x & Hx & H).

(** ** File names *)

Lemma list_ascii_append (s1 s2 : string) :
  String.list_ascii_of_string (s1 +:+ s2)
  = String.list_ascii_of_string s1 ++ String.list_ascii_of_string s2.
Proof.
  induction s1 as [|c s1 IH]; [done|].
  rewrite append_cons. simpl. by rewrite IH.
Qed.

Lemma list_ascii_inj (s1 s2 : string) :
  String.list_ascii_of_string s1 = String.list_ascii_of_string s2 → s1 = s2.
Proof.
  intros Heq.
  rewrite <- (String.string_of_list_ascii_of_string s1),
          <- (String.string_of_list_ascii_of_string s2).
  by rewrite Heq.
Qed.

(** Two month keys have two files. *)
Lemma get_data_file_inj (k k' : string) :
  get_data_file k = get_data_file k' → k = k'.
Proof.
  unfold get_data_file. intros Heq.
  apply (f_equal String.list_ascii_of_string) in Heq.
  rewrite !list_ascii_append in Heq.
  apply app_inv_head, app_inv_tail in Heq.
  by apply list_ascii_inj.
Qed.

Lemma first_match_here (s key : string) :
  match_here s = Some key → first_match s = Some key.
Proof.
  intros Hs. destruct s as [|c s]; [by vm_compute in Hs|].
  simpl. by rewrite Hs.
Qed.

(** The file of a month key is one [list_saved_months] finds, under that
    key. *)
Lemma month_file_listed (k : string) :
  is_month_key k = true →
  glob_budget (get_data_file k) = true ∧ first_match (get_data_file k) = Some k.
Proof.
  intros Hk. pose proof Hk as Hk'.
  apply month_key_inv in Hk' as (y1 & y2 & y3 & y4 & m1 & m2 & -> & Hd).
  split; [reflexivity|].
  apply first_match_here. unfold match_here.
  match goal with
  | |- context [is_month_key ?key] =>
      change key with
        (String y1 (String y2 (String y3 (String y4
           (String (Ascii.ascii_of_nat 45) (String m1 (String m2 EmptyString)))))))
  end.
  rewrite Hk. reflexivity.
Qed.

(** ** Which months are saved *)

Lemma saved_months_elem (st : store) (m : string) :
  m ∈ saved_months st
  ↔ ∃ name, is_Some (st !! name) ∧ glob_budget name = true
            ∧ first_match name = Some m.
Proof.
  unfold saved_months, sorted_set. rewrite merge_sort_Permutation.
  rewrite elem_of_remove_dups, list_elem_of_omap.
  split.
  - intros (name & [Hglob Hname]%list_elem_of_filter & Hm).
    exists name. split; [|done].
    apply list_elem_of_fmap in Hname as ([name' f] & -> & Hf).
    apply elem_of_map_to_list in Hf. simpl. rewrite Hf. eauto.
  - intros (name & [f Hf] & Hglob & Hm).
    exists name. split; [|done].
    apply list_elem_of_filter. split; [done|].
    apply list_elem_of_fmap. exists (name, f). split; [done|].
    by apply elem_of_map_to_list.
Qed.

Lemma saved_months_nodup (st : store) : NoDup (saved_months st).
Proof.
  unfold saved_months, sorted_set.
  rewrite merge_sort_Permutation. apply NoDup_remove_dups.
Qed.

(** Two directories with the same months listed have the same list. *)
Lemma saved_months_ext (st st' : store) :
  (∀ m, m ∈ saved_months st ↔ m ∈ saved_months st') →
  saved_months st = saved_months st'.
Proof.
  intros Hsame.
  apply (StronglySorted_unique String.le).
  - apply StronglySorted_merge_sort; apply _.
  - apply StronglySorted_merge_sort; apply _.
  - apply NoDup_Permutation; [apply saved_months_nodup..|done].
Qed.

Section StoreLaws.
Context `{FloatSyntax}.

(** A load looks at one file only. *)
Lemma load_lookup (k : string) (st st' : store) :
  st !! get_data_file k = st' !! get_data_file k →
  (load_month_data k st).1 = (load_month_data k st').1.
Proof.
  intros Heq.
  destruct (st !! get_data_file k) as [[d|]|] eqn:Hk; symmetry in Heq.
  - by rewrite (load_json _ st d), (load_json _ st' d).
  - by rewrite !load_malformed.
  - by rewrite !load_absent.
Qed.

Lemma save_lookup_other (k : string) (data : value) (st : store) (name : string) :
  name ≠ get_data_file k →
  (save_month_data k data st).2 !! name = st !! name.
Proof.
  intros Hname. unfold save_month_data, Fs.json_dump.
  destruct (Fs.has_separator _); simpl; [done|].
  by rewrite lookup_insert_ne.
Qed.

Lemma reset_store (k : string) (st : store) :
  reset_month k st = (Ok (), delete (get_data_file k) st).
Proof.
  unfold reset_month, Fs.exists_, unlink. unfold mbind, io_bind.
  destruct (st !! get_data_file k) as [f|] eqn:Hk.
  - rewrite bool_decide_eq_true_2 by eauto. by rewrite Hk.
  - rewrite bool_decide_eq_false_2 by (by intros [? ?]).
    by rewrite delete_id.
Qed.

Lemma for_each_raise_inv {A B} (f : A → result B) (xs : list A) (e : exn) :
  for_each f xs = Raise e → ∃ x, x ∈ xs ∧ f x = Raise e.
Proof.
  induction xs as [|x xs IH]; simpl; [done|].
  destruct (f x) as [y|e'] eqn:Hx; simpl.
  - destruct (for_each f xs) as [ys|e'']; simpl; [done|].
    intros [= ->]. destruct IH as (x' & Hx' & Hf); [done|].
    exists x'. split; [by right|done].
  - intros [= ->]. exists x. split; [by left|done].
Qed.

Lemma for_each_is_ok {A B} (f : A → result B) (xs : list A) :
  is_ok (for_each f xs) = true ↔ Forall (λ x, is_ok (f x) = true) xs.
Proof.
  split.
  - induction xs as [|x xs IH]; simpl; [constructor|].
    destruct (f x) as [y|] eqn:Hx; simpl; [|done].
    destruct (for_each f xs) as [ys|]; simpl; [|done].
    intros _. constructor; [by rewrite Hx|by apply IH].
  - intros Hall. by destruct (for_each_ok f xs Hall) as [ys ->].
Qed.

Lemma load_row_raise (st : store) (ym : string) (e : exn) :
  load_row st ym = Raise e → (load_month_data ym st).1 = Raise e.
Proof.
  unfold load_row. destruct (load_month_data ym st).1 as [d|e'] eqn:Hd; simpl.
  - destruct (load_typed _ _ _ Hd) as [r ->]. by rewrite year_row_to_dict.
  - by intros [= ->].
Qed.

Lemma load_row_is_ok (st : store) (ym : string) :
  is_ok (load_row st ym) = is_ok (load_month_data ym st).1.
Proof.
  unfold load_row. destruct (load_month_data ym st).1 as [d|e'] eqn:Hd; simpl; [|done].
  destruct (load_typed _ _ _ Hd) as [r ->]. by rewrite year_row_to_dict.
Qed.

End StoreLaws.

(** ** The store, beside the claims *)

Section StoreExtras.
Context `{FloatSyntax}.

(** X1. Saving a month key adds that month, and no other, to what
    [list_saved_months] returns. *)
Theorem save_adds_month (k : string) (data : value) (st : store)
    (months months' : list string) :
  is_month_key k = true →
  (list_saved_months st).1 = Ok months →
  (list_saved_months (save_month_data k data st).2).1 = Ok months' →
  ∀ m, m ∈ months' ↔ m = k ∨ m ∈ months.
Proof.
  intros Hk Hm Hm' m.
  rewrite list_saved_months_eq in Hm, Hm'. cbn [fst] in Hm, Hm'.
  injection Hm as <-. injection Hm' as <-.
  rewrite save_store by done. cbn [snd].
  destruct (month_file_listed k Hk) as [Hglob Hfirst].
  rewrite !saved_months_elem. split.
  - intros (name & Hname & Hg & Hm).
    destruct (decide (name = get_data_file k)) as [->|Hne].
    + left. rewrite Hfirst in Hm. by injection Hm.
    + right. exists name. by rewrite lookup_insert_ne in Hname.
  - intros [->|(name & Hname & Hg & Hm)].
    + exists (get_data_file k). by rewrite lookup_insert_eq.
    + exists name. split; [|done].
      destruct (decide (get_data_file k = name)) as [<-|Hne].
      * by rewrite lookup_insert_eq.
      * by rewrite lookup_insert_ne.
Qed.

(** X2. [list_saved_months] never fails and never writes; the keys it
    returns are in strictly ascending order and none comes twice. In a
    directory whose file names are ASCII, each key has the form [dddd-dd]
    with ASCII digits. *)
Theorem list_saved_months_sorted (st : store) :
  ∃ months, list_saved_months st = (Ok months, st)
    ∧ StronglySorted (strict String.le) months
    ∧ NoDup months
    ∧ (ascii_names st = true → Forall (λ m, is_month_key m = true) months).
Proof.
  exists (saved_months st). split; [done|]. split; [|split].
  - apply saved_months_sorted.
  - apply saved_months_nodup.
  - intros _. apply Forall_forall. apply saved_months_keys.
Qed.

(** X3. Saving one month changes nothing about what a load of another
    month returns. *)
Theorem save_other_month (k k' : string) (data : value) (st : store) :
  k ≠ k' →
  (load_month_data k' (save_month_data k data st).2).1
  = (load_month_data k' st).1.
Proof.
  intros Hne. apply load_lookup. apply save_lookup_other.
  intros Heq. by apply get_data_file_inj in Heq.
Qed.

(** X4. A save replaces the whole file: after it, the load of that month
    is the normalization of the data saved, whatever was stored before; a
    second save makes the first one forgotten. Data that does not normalize
    is saved all the same, and the load then raises. *)
Theorem save_overwrites (k : string) (d1 d2 : value) (st : store) :
  is_month_key k = true →
  (save_month_data k d2 (save_month_data k d1 st).2).2 = (save_month_data k d2 st).2
  ∧ (save_month_data k d2 st).1 = Ok ()
  ∧ (load_month_data k (save_month_data k d2 st).2).1 = normalize d2.
Proof.
  intros Hk. rewrite !save_store by done. simpl.
  split; [apply insert_insert_eq|]. split; [done|].
  by rewrite (load_json _ _ d2) by apply lookup_insert_eq.
Qed.

(** X5. The Reset never fails, with or without a file for the month, and
    after it the load of that month returns the default record. *)
Theorem reset_then_load (k : string) (st : store) :
  (reset_month k st).1 = Ok ()
  ∧ (reset_month k st).2 !! get_data_file k = None
  ∧ (load_month_data k (reset_month k st).2).1 = Ok default_month_data.
Proof.
  rewrite reset_store. simpl. split; [done|].
  split; [apply lookup_delete_eq|].
  by rewrite load_absent by apply lookup_delete_eq.
Qed.

(** X6. The Reset of a month removes that month's file and no other: every
    other file is as it was, and so is every other month's load. *)
Theorem reset_other_month (k k' : string) (st : store) :
  k ≠ k' →
  (∀ name, name ≠ get_data_file k → (reset_month k st).2 !! name = st !! name)
  ∧ (load_month_data k' (reset_month k st).2).1 = (load_month_data k' st).1.
Proof.
  intros Hne. rewrite reset_store. simpl.
  split.
  - intros name Hname. by apply lookup_delete_ne.
  - apply load_lookup, lookup_delete_ne.
    intros Heq. by apply get_data_file_inj in Heq.
Qed.

(** X7. Loading, listing and aggregating only read: the directory after
    each of them is the directory before, also when they raise. *)
Theorem reads_never_write (k : string) (year : Z) (st : store) :
  (load_month_data k st).2 = st
  ∧ (list_saved_months st).2 = st
  ∧ (aggregate_year year st).2 = st.
Proof.
  split; [apply load_store|]. split; [done|].
  by rewrite aggregate_year_eq.
Qed.

(** X8. [aggregate_year] returns rows exactly when every saved month of
    the year loads; when it raises, the exception is the one a load of a
    saved month of that year raises. *)
Theorem aggregate_year_raises (year : Z) (st : store) :
  (is_ok (aggregate_year year st).1 = true
   ↔ ∀ ym, ym ∈ saved_months st → year_of ym = pretty year →
           is_ok (load_month_data ym st).1 = true)
  ∧ ∀ e, (aggregate_year year st).1 = Raise e →
         ∃ ym, ym ∈ saved_months st ∧ year_of ym = pretty year
               ∧ (load_month_data ym st).1 = Raise e.
Proof.
  rewrite aggregate_year_eq. simpl. split.
  - rewrite for_each_is_ok, Forall_forall. split.
    + intros Hall ym Hym Hy. rewrite <- load_row_is_ok. apply Hall.
      by apply months_of_year_spec.
    + intros Hall ym [Hym Hy]%months_of_year_spec.
      rewrite load_row_is_ok. by apply Hall.
  - intros e (ym & [Hym Hy]%months_of_year_spec & He)%for_each_raise_inv.
    exists ym. split; [done|]. split; [done|]. by apply load_row_raise.
Qed.

(** X9. A file that is no month file is ignored by
    [list_saved_months]: when its name is ASCII and does not match
    [budget_*.json], or holds no [budget_dddd-dd.json], the months listed
    are the same with the file and without it. *)
Theorem list_ignores_other_files (name : string) (f : file) (st : store) :
  is_ascii name = true →
  glob_budget name = false ∨ first_match name = None →
  (list_saved_months (<[name := f]> st)).1 = (list_saved_months st).1
  ∧ (list_saved_months (delete name st)).1 = (list_saved_months st).1.
Proof.
  intros _ Hname. rewrite !list_saved_months_eq. cbn [fst].
  assert (Hno : ∀ m, ¬ (glob_budget name = true ∧ first_match name = Some m)).
  { intros m [Hg Hm]. destruct Hname as [Hname|Hname]; congruence. }
  split; f_equal; apply saved_months_ext; intros m; rewrite !saved_months_elem;
    split; intros (n & Hn & Hg & Hm); exists n; (split; [|done]);
    destruct (decide (name = n)) as [->|Hne];
    try (by destruct (Hno m)).
  - by rewrite lookup_insert_ne in Hn.
  - by rewrite lookup_insert_ne.
  - by rewrite lookup_delete_ne in Hn.
  - by rewrite lookup_delete_ne.
Qed.

End StoreExtras.

(** ** Normalization, beside the claims *)

Section NormalizeExtras.
Context `{FloatSyntax}.

Lemma for_each_items {A} (f : value → result value) (g : A → value)
    (xs ys : list value) :
  (∀ x y, f x = Ok y → ∃ a, y = g a) →
  for_each f xs = Ok ys →
  ∃ its, ys = map g its ∧ Forall2 (λ x a, f x = Ok (g a)) xs its.
Proof.
  intros Hf Hys. apply for_each_ok_inv in Hys.
  induction Hys as [|x y xs ys Hxy _ (its & -> & IH)].
  - exists []. split; [done|constructor].
  - destruct (Hf _ _ Hxy) as [a ->]. exists (a :: its).
    split; [done|]. by constructor.
Qed.

(** [normalize], read backwards: the record it returns, field by field
    from the raw one. *)
Lemma normalize_inv (d out : value) :
  normalize d = Ok out →
  ∃ r inc bi ex sa,
    out = to_dict r
    ∧ float_field d "rollover" = Ok (md_rollover r)
    ∧ float_field d "debt" = Ok (md_debt r)
    ∧ raw_items d "income_items" = Ok inc
    ∧ Forall2 (λ x it, normalize_item "amount" x = Ok (item_to_dict "amount" it))
        inc (md_income r)
    ∧ raw_items d "bill_items" = Ok bi
    ∧ Forall2 (λ x b, normalize_bill x = Ok (bill_to_dict b)) bi (md_bills r)
    ∧ raw_items d "expense_items" = Ok ex
    ∧ Forall2 (λ x it, normalize_item "spent" x = Ok (item_to_dict "spent" it))
        ex (md_expenses r)
    ∧ raw_items d "savings_items" = Ok sa
    ∧ Forall2 (λ x it, normalize_item "saved" x = Ok (item_to_dict "saved" it))
        sa (md_savings r).
Proof.
  unfold normalize, raw_items. intros Hout.
  bind_as Hout ro Hro. bind_as Hout de Hde.
  bind_as Hout v1 Hv1. bind_as Hout xs1 Hxs1. bind_as Hout ys1 Hys1.
  apply (for_each_items _ (item_to_dict "amount")) in Hys1 as (income & -> & Hinc);
    [|apply normalize_item_shape].
  bind_as Hout v2 Hv2. bind_as Hout xs2 Hxs2. bind_as Hout ys2 Hys2.
  apply (for_each_items _ bill_to_dict) in Hys2 as (bills & -> & Hbi);
    [|apply normalize_bill_shape].
  bind_as Hout v3 Hv3. bind_as Hout xs3 Hxs3. bind_as Hout ys3 Hys3.
  apply (for_each_items _ (item_to_dict "spent")) in Hys3 as (expenses & -> & Hex);
    [|apply normalize_item_shape].
  bind_as Hout v4 Hv4. bind_as Hout xs4 Hxs4. bind_as Hout ys4 Hys4.
  apply (for_each_items _ (item_to_dict "saved")) in Hys4 as (savings & -> & Hsa);
    [|apply normalize_item_shape].
  injection Hout as <-.
  exists (MonthData ro de income bills expenses savings), xs1, xs2, xs3, xs4.
  simpl. rewrite Hv1, Hv2, Hv3, Hv4. simpl. by repeat split.
Qed.

(** X10. Normalization keeps the items of each collection, one normalized
    item for each raw item and in the raw order: none is dropped, added or
    moved. *)
Theorem normalize_keeps_items (d out : value) :
  normalize d = Ok out →
  ∃ r inc bi ex sa,
    out = to_dict r
    ∧ raw_items d "income_items" = Ok inc
    ∧ Forall2 (λ x it, normalize_item "amount" x = Ok (item_to_dict "amount" it))
        inc (md_income r)
    ∧ raw_items d "bill_items" = Ok bi
    ∧ Forall2 (λ x b, normalize_bill x = Ok (bill_to_dict b)) bi (md_bills r)
    ∧ raw_items d "expense_items" = Ok ex
    ∧ Forall2 (λ x it, normalize_item "spent" x = Ok (item_to_dict "spent" it))
        ex (md_expenses r)
    ∧ raw_items d "savings_items" = Ok sa
    ∧ Forall2 (λ x it, normalize_item "saved" x = Ok (item_to_dict "saved" it))
        sa (md_savings r)
    ∧ length (md_income r) = length inc
    ∧ length (md_bills r) = length bi
    ∧ length (md_expenses r) = length ex
    ∧ length (md_savings r) = length sa.
Proof.
  intros (r & inc & bi & ex & sa & -> & _ & _ & Hinc & Finc & Hbi & Fbi
          & Hex & Fex & Hsa & Fsa)%normalize_inv.
  exists r, inc, bi, ex, sa.
  repeat split; try done; symmetry; by eapply Forall2_length.
Qed.

(** X11. In a stored record, a collection that is missing is loaded as the
    empty list and a number that is missing as 0.0: the starter items of
    the default record come back only when the month has no file. *)
Theorem normalize_missing_fields (kvs : list (string * value)) (out : value) :
  normalize (VDict kvs) = Ok out →
  ∃ r, out = to_dict r
    ∧ (Py.lookup_key "rollover" kvs = None → md_rollover r = pos_zero)
    ∧ (Py.lookup_key "debt" kvs = None → md_debt r = pos_zero)
    ∧ (Py.lookup_key "income_items" kvs = None → md_income r = [])
    ∧ (Py.lookup_key "bill_items" kvs = None → md_bills r = [])
    ∧ (Py.lookup_key "expense_items" kvs = None → md_expenses r = [])
    ∧ (Py.lookup_key "savings_items" kvs = None → md_savings r = []).
Proof.
  intros (r & inc & bi & ex & sa & -> & Hro & Hde & Hinc & Finc & Hbi & Fbi
          & Hex & Fex & Hsa & Fsa)%normalize_inv.
  exists r. split; [done|].
  unfold raw_items in *. simpl in Hinc, Hbi, Hex, Hsa.
  repeat split; intros Hk.
  - rewrite float_field_absent in Hro by auto. by injection Hro.
  - rewrite float_field_absent in Hde by auto. by injection Hde.
  - rewrite Hk in Hinc. injection Hinc as <-. by inversion Finc.
  - rewrite Hk in Hbi. injection Hbi as <-. by inversion Fbi.
  - rewrite Hk in Hex. injection Hex as <-. by inversion Fex.
  - rewrite Hk in Hsa. injection Hsa as <-. by inversion Fsa.
Qed.

(** X12. Normalization reads the six fields of a record and, of an item,
    its name and its amount (of a bill also [actual] and [paid]): two raw
    values that agree on these normalize alike, whatever else they hold. *)
Theorem normalize_known_fields (kvs kvs' : list (string * value)) :
  ((∀ key, key ∈ record_keys → Py.lookup_key key kvs = Py.lookup_key key kvs') →
   normalize (VDict kvs) = normalize (VDict kvs'))
  ∧ (∀ field,
       (∀ key, key ∈ ["name"; field] → Py.lookup_key key kvs = Py.lookup_key key kvs') →
       normalize_item field (VDict kvs) = normalize_item field (VDict kvs'))
  ∧ ((∀ key, key ∈ ["name"; "amount"; "actual"; "paid"] →
             Py.lookup_key key kvs = Py.lookup_key key kvs') →
     normalize_bill (VDict kvs) = normalize_bill (VDict kvs')).
Proof.
  split; [|split].
  - intros Hsame. unfold normalize, float_field. simpl.
    rewrite !(Hsame "rollover"), !(Hsame "debt"), !(Hsame "income_items"),
      !(Hsame "bill_items"), !(Hsame "expense_items"), !(Hsame "savings_items");
      try done; unfold record_keys; set_solver.
  - intros field Hsame. unfold normalize_item, float_field. simpl.
    rewrite (Hsame "name"), (Hsame field); [done|set_solver..].
  - intros Hsame. unfold normalize_bill, bill_amount. simpl.
    rewrite (Hsame "name"), (Hsame "amount"), (Hsame "actual"), (Hsame "paid");
      [done|set_solver..].
Qed.

(** X13. Normalizing a normalized record succeeds, and from the second
    pass on changes nothing any more. *)
Theorem normalize_twice (d n : value) :
  normalize d = Ok n →
  ∃ n', normalize n = Ok n' ∧ normalize n' = Ok n'.
Proof.
  intros [r ->]%normalize_shape. exists (to_dict (reread r)).
  rewrite !normalize_to_dict. by rewrite reread_idemp.
Qed.

(** X14. A raw record that is no object makes normalization raise
    [AttributeError], and so does an item that is no object; a file that
    holds such a record makes the load raise it, and is left as it is. *)
Theorem normalize_not_object (d : value) :
  (∀ kvs, d ≠ VDict kvs) →
  normalize d = Raise AttributeError
  ∧ (∀ key, normalize_item key d = Raise AttributeError)
  ∧ normalize_bill d = Raise AttributeError
  ∧ ∀ k st, st !! get_data_file k = Some (Json d) →
            load_month_data k st = (Raise AttributeError, st).
Proof.
  intros Hd.
  assert (Hn : normalize d = Raise AttributeError).
  { destruct d as [| | | | | |kvs]; try done. by destruct (Hd kvs). }
  split; [done|]. split; [|split].
  - intros key. destruct d as [| | | | | |kvs]; try done. by destruct (Hd kvs).
  - destruct d as [| | | | | |kvs]; try done. by destruct (Hd kvs).
  - intros k st Hk. by rewrite (load_json _ _ d), Hn.
Qed.

(** X15. When [calculate_totals] returns for a record, the yearly row of
    that record exists and has the same four sums and the same debt: the
    two differ in [left] only, by the rollover. *)
Theorem year_row_same_sums (ym : string) (d : value) (t : totals) :
  calculate_totals d = Ok t →
  ∃ rw, year_row ym d = Ok rw
    ∧ Income rw = total_income t
    ∧ Expenses rw = total_expenses t
    ∧ Bills rw = total_bills t
    ∧ Saved rw = total_savings t
    ∧ Debt rw = total_debt t
    ∧ Left rw = fsub (fsub (fsub (fsub (total_income t) (total_expenses t))
                                 (total_bills t)) (total_savings t)) (total_debt t)
    ∧ left_amount t =
        fsub (fsub (fsub (fsub (fadd (total_income t) (rollover t))
                               (total_expenses t)) (total_bills t))
                   (total_savings t)) (total_debt t).
Proof.
  unfold calculate_totals. intros Ht.
  bind_as Ht ti Hinc. bind_as Ht tb Hbi. bind_as Ht te Hex.
  bind_as Ht ts Hsa. bind_as Ht td Hde. bind_as Ht ro Hro.
  injection Ht as <-.
  unfold year_row. rewrite Hinc, Hex, Hbi, Hsa. simpl. rewrite Hde. simpl.
  eexists. split; [done|]. by repeat split.
Qed.

(** X16. Totals and yearly rows depend on the amounts only: names and paid
    marks have no part in them, so a bill counts whether it is paid or
    not. *)
Theorem totals_ignore_names (ym : string) (r r' : month_data) :
  md_rollover r = md_rollover r' →
  md_debt r = md_debt r' →
  map i_amount (md_income r) = map i_amount (md_income r') →
  map b_amount (md_bills r) = map b_amount (md_bills r') →
  map i_amount (md_expenses r) = map i_amount (md_expenses r') →
  map i_amount (md_savings r) = map i_amount (md_savings r') →
  calculate_totals (to_dict r) = calculate_totals (to_dict r')
  ∧ year_row ym (to_dict r) = year_row ym (to_dict r').
Proof.
  intros Hro Hde Hinc Hbi Hex Hsa.
  rewrite !calculate_totals_to_dict, !year_row_to_dict.
  unfold totals_of, row_of, income_sum, bills_sum, expenses_sum, savings_sum.
  rewrite <- !(map_map i_amount or_zero), <- !(map_map b_amount or_zero).
  by rewrite Hro, Hde, Hinc, Hbi, Hex, Hsa.
Qed.

End NormalizeExtras.

(** ** The export, the chart and the save at the end of a run *)

Lemma fltb_zero_pos (x : float) :
  fltb pos_zero x = true → fltb x pos_zero = false ∧ fsub x pos_zero = x.
Proof. destruct x as [[]|[]| |[] m e]; done. Qed.

Lemma pymax_zero (x : float) : fltb (pymax x pos_zero) pos_zero = false.
Proof. unfold pymax. by destruct (fltb x pos_zero) eqn:E. Qed.

Lemma filter_label_same (label : string) (rows : list export_row) :
  Forall (λ rw, Category rw = label) rows →
  filter (λ rw, Category rw = label) rows = rows.
Proof.
  induction 1 as [|rw rows Hrw _ IH]; [done|].
  rewrite filter_cons_True by done. by rewrite IH.
Qed.

Lemma filter_label_other (label : string) (rows : list export_row) :
  Forall (λ rw, Category rw ≠ label) rows →
  filter (λ rw, Category rw = label) rows = [].
Proof.
  induction 1 as [|rw rows Hrw _ IH]; [done|].
  by rewrite filter_cons_False.
Qed.

Section PageExtras.
Context `{FloatSyntax}.

(** One loop of the export: what it returns has the loop's label on every
    row, and its amounts are the terms the sum of that category adds. *)
Lemma export_category_inv (d : value) (key field label : string)
    (rows : list export_row) :
  export_category d key field label = Ok rows →
  Forall (λ rw, Category rw = label) rows
  ∧ sum_field d key field = Ok (pysum (map Amount rows))
  ∧ ∃ xs, raw_items d key = Ok xs
      ∧ Forall2 (λ x rw, Py.get x "name" (VStr "") = Ok (Item rw)
                         ∧ float_field x field = Ok (Amount rw)) xs rows.
Proof.
  unfold export_category, sum_field, raw_items. intros Hrows.
  bind_as Hrows v Hv. bind_as Hrows xs Hxs. rewrite Hv. simpl. rewrite Hxs. simpl.
  apply for_each_ok_inv in Hrows.
  assert (Hall : Forall2 (λ x rw, Category rw = label
              ∧ Py.get x "name" (VStr "") = Ok (Item rw)
              ∧ float_field x field = Ok (Amount rw)) xs rows).
  { eapply Forall2_impl; [done|]. intros x rw Hrw. simpl in Hrw.
    bind_as Hrw name Hname. bind_as Hrw amount Hamount.
    by injection Hrw as <-. }
  clear Hrows. split; [|split].
  - clear Hxs. induction Hall as [|x rw xs' rows' (Hc & _) _ IH];
      [constructor | constructor; [exact Hc | exact IH]].
  - assert (for_each (λ x, float_field x field) xs = Ok (map Amount rows)) as ->;
      [|done].
    clear Hxs.
    induction Hall as [|x rw xs' rows' (_ & _ & Hf) _ IH]; [done|].
    simpl. by rewrite Hf, IH.
  - exists xs. split; [done|].
    eapply Forall2_impl; [done|]. by intros x rw (_ & ? & ?).
Qed.

Lemma export_rows_inv (d : value) (rows : list export_row) :
  export_rows d = Ok rows →
  ∃ inc bi exs sa,
    rows = inc ++ bi ++ exs ++ sa
    ∧ export_category d "income_items" "amount" "Income" = Ok inc
    ∧ export_category d "bill_items" "amount" "Bills" = Ok bi
    ∧ export_category d "expense_items" "spent" "Expenses" = Ok exs
    ∧ export_category d "savings_items" "saved" "Savings" = Ok sa.
Proof.
  unfold export_rows. intros Hrows.
  bind_as Hrows inc Hinc. bind_as Hrows bi Hbi.
  bind_as Hrows exs Hexs. bind_as Hrows sa Hsa.
  injection Hrows as <-. by exists inc, bi, exs, sa.
Qed.

Lemma export_items (field label : string) (its : list line_item) :
  field ≠ "name" →
  for_each (λ item,
    name ← Py.get item "name" (VStr "");
    amount ← float_field item field;
    Ok (ExportRow label name amount)) (map (item_to_dict field) its)
  = Ok (map (λ it, ExportRow label (i_name it) (or_zero (i_amount it))) its).
Proof.
  intros Hfield. induction its as [|it its IH]; [done|].
  cbn [map for_each]. rewrite IH.
  rewrite float_field_item by done. done.
Qed.

Lemma export_bills (bs : list bill_item) :
  for_each (λ item,
    name ← Py.get item "name" (VStr "");
    amount ← float_field item "amount";
    Ok (ExportRow "Bills" name amount)) (map bill_to_dict bs)
  = Ok (map (λ b, ExportRow "Bills" (b_name b) (or_zero (b_amount b))) bs).
Proof.
  induction bs as [|b bs IH]; [done|].
  cbn [map for_each]. rewrite IH.
  rewrite float_field_bill. done.
Qed.

Lemma export_rows_to_dict (r : month_data) :
  export_rows (to_dict r)
  = Ok (map (λ it, ExportRow "Income" (i_name it) (or_zero (i_amount it))) (md_income r)
        ++ map (λ b, ExportRow "Bills" (b_name b) (or_zero (b_amount b))) (md_bills r)
        ++ map (λ it, ExportRow "Expenses" (i_name it) (or_zero (i_amount it))) (md_expenses r)
        ++ map (λ it, ExportRow "Savings" (i_name it) (or_zero (i_amount it))) (md_savings r)).
Proof.
  unfold export_rows, export_category. simpl.
  rewrite !export_items by done. rewrite export_bills. done.
Qed.

(** X17. The export has one row for each item of the record, income first,
    then bills, expenses and savings, each under the label of its
    category and in the order of the record. *)
Theorem export_one_row_per_item (d : value) (rows : list export_row) :
  export_rows d = Ok rows →
  ∃ inc bi exs sa,
    raw_items d "income_items" = Ok inc
    ∧ raw_items d "bill_items" = Ok bi
    ∧ raw_items d "expense_items" = Ok exs
    ∧ raw_items d "savings_items" = Ok sa
    ∧ Forall2 (λ x rw, Py.get x "name" (VStr "") = Ok (Item rw))
        (inc ++ bi ++ exs ++ sa) rows
    ∧ map Category rows
      = replicate (length inc) "Income" ++ replicate (length bi) "Bills"
        ++ replicate (length exs) "Expenses" ++ replicate (length sa) "Savings".
Proof.
  intros (r1 & r2 & r3 & r4 & -> & H1 & H2 & H3 & H4)%export_rows_inv.
  apply export_category_inv in H1 as (L1 & _ & x1 & Hx1 & F1).
  apply export_category_inv in H2 as (L2 & _ & x2 & Hx2 & F2).
  apply export_category_inv in H3 as (L3 & _ & x3 & Hx3 & F3).
  apply export_category_inv in H4 as (L4 & _ & x4 & Hx4 & F4).
  exists x1, x2, x3, x4. repeat split; try done.
  - repeat apply Forall2_app;
      (eapply Forall2_impl; [done|]; by intros x rw [? _]).
  - assert (Hlabel : ∀ (label : string) (xs : list value) (rs : list export_row),
              Forall (λ rw, Category rw = label) rs → length xs = length rs →
              map Category rs = replicate (length xs) label).
    { intros label xs rs Hrs ->. induction Hrs as [|rw rs Hrw _ IH]; [done|].
      simpl. by rewrite Hrw, IH. }
    rewrite !map_app.
    rewrite (Hlabel "Income" x1 r1), (Hlabel "Bills" x2 r2),
      (Hlabel "Expenses" x3 r3), (Hlabel "Savings" x4 r4);
      try done; by eapply Forall2_length.
Qed.

(** X18. The amounts the export has under a category add up to the total
    that [calculate_totals] returns for that category. *)
Theorem export_agrees_with_totals (d : value) (rows : list export_row) (t : totals) :
  export_rows d = Ok rows →
  calculate_totals d = Ok t →
  pysum (amounts_of "Income" rows) = total_income t
  ∧ pysum (amounts_of "Bills" rows) = total_bills t
  ∧ pysum (amounts_of "Expenses" rows) = total_expenses t
  ∧ pysum (amounts_of "Savings" rows) = total_savings t.
Proof.
  intros (r1 & r2 & r3 & r4 & -> & H1 & H2 & H3 & H4)%export_rows_inv Ht.
  apply export_category_inv in H1 as (L1 & S1 & _).
  apply export_category_inv in H2 as (L2 & S2 & _).
  apply export_category_inv in H3 as (L3 & S3 & _).
  apply export_category_inv in H4 as (L4 & S4 & _).
  unfold calculate_totals in Ht.
  rewrite S1, S2, S3, S4 in Ht. simpl in Ht.
  bind_as Ht td Hde. bind_as Ht ro Hro. injection Ht as <-. simpl.
  unfold amounts_of. rewrite !filter_app.
  assert (Hother : ∀ (l l' : string) (rs : list export_row),
            l ≠ l' → Forall (λ rw, Category rw = l) rs →
            filter (λ rw, Category rw = l') rs = []).
  { intros l l' rs Hne Hrs. apply filter_label_other.
    eapply Forall_impl; [done|]. by intros rw ->. }
  repeat split.
  - rewrite (filter_label_same _ r1), (Hother "Bills" _ r2),
      (Hother "Expenses" _ r3), (Hother "Savings" _ r4) by done.
    by rewrite !app_nil_r.
  - rewrite (filter_label_same _ r2), (Hother "Income" _ r1),
      (Hother "Expenses" _ r3), (Hother "Savings" _ r4) by done.
    by rewrite !app_nil_r.
  - rewrite (filter_label_same _ r3), (Hother "Income" _ r1),
      (Hother "Bills" _ r2), (Hother "Savings" _ r4) by done.
    by rewrite !app_nil_r.
  - rewrite (filter_label_same _ r4), (Hother "Income" _ r1),
      (Hother "Bills" _ r2), (Hother "Expenses" _ r3) by done.
    done.
Qed.

(** X19. Whatever [load_month_data] returns, the page can use without an
    error: the totals, the row of the year and the rows of the export are
    all computed. *)
Theorem loaded_record_usable (k : string) (st : store) (d : value) :
  (load_month_data k st).1 = Ok d →
  (∃ t, calculate_totals d = Ok t)
  ∧ (∀ ym, ∃ rw, year_row ym d = Ok rw)
  ∧ (∃ rows, export_rows d = Ok rows).
Proof.
  intros [r ->]%load_typed. split; [|split].
  - eexists. apply calculate_totals_to_dict.
  - intros ym. eexists. apply year_row_to_dict.
  - eexists. apply export_rows_to_dict.
Qed.

(** X20. No value of the Amount Left chart is below zero, whatever the
    totals are. *)
Theorem donut_never_negative (total_income rollover left_amount : float) :
  Forall (λ v, fltb v pos_zero = false)
    (donut_values total_income rollover left_amount).
Proof.
  unfold donut_values.
  destruct (fltb pos_zero _); repeat constructor; apply pymax_zero.
Qed.

(** X21. When the month is overspent ([left_amount < 0]) and there is
    money to spend ([total_income + rollover > 0]), the chart shows nothing
    remaining and all of it spent. *)
Theorem donut_overspent (total_income rollover left_amount : float) :
  fltb left_amount pos_zero = true →
  fltb pos_zero (fadd total_income rollover) = true →
  donut_values total_income rollover left_amount
  = [pos_zero; fadd total_income rollover].
Proof.
  intros Hleft Hbase. unfold donut_values, pymax.
  destruct (fltb_zero_pos _ Hbase) as [Hneg Hsub].
  rewrite Hleft, Hneg, Hbase, Hsub. by rewrite Hneg.
Qed.

(** X22. In a run that does not edit the record and whose statements
    between the load and the save only read the directory: when they
    return, the save at the end writes what the load at the top returned,
    the normalized record for a month that has a file, the default record
    for one that has none, which thereby gets a file and is among the saved
    months from then on; when one of them raises (an unreadable month in
    the Year view), the run ends there and nothing is written. *)
Theorem run_saves_loaded {A} (between : io A) (k : string) (st : store)
    (d : value) :
  is_month_key k = true →
  (load_month_data k st).1 = Ok d →
  (∀ a, between st = (Ok a, st) →
        run_to_save between k st = (Ok (), <[get_data_file k := Json d]> st)
        ∧ ∃ months, (list_saved_months (run_to_save between k st).2).1 = Ok months
                    ∧ k ∈ months)
  ∧ (∀ e, between st = (Raise e, st) → run_to_save between k st = (Raise e, st))
  ∧ (st !! get_data_file k = None → d = default_month_data)
  ∧ (∀ raw, st !! get_data_file k = Some (Json raw) → normalize raw = Ok d).
Proof.
  intros Hk Hd.
  assert (Hload : load_month_data k st = (Ok d, st)).
  { pose proof (load_store k st) as Hst.
    destruct (load_month_data k st) as [r st']. simpl in *. by subst. }
  split; [|split; [|split]].
  - intros a Ha.
    assert (Hrun : run_to_save between k st
                   = (Ok (), <[get_data_file k := Json d]> st)).
    { unfold run_to_save, mbind, io_bind. rewrite Hload, Ha.
      by rewrite save_store. }
    split; [done|]. rewrite Hrun. simpl.
    exists (saved_months (<[get_data_file k := Json d]> st)).
    split; [done|]. apply saved_months_elem.
    destruct (month_file_listed k Hk) as [Hglob Hfirst].
    exists (get_data_file k). by rewrite lookup_insert_eq.
  - intros e He. unfold run_to_save, mbind, io_bind. by rewrite Hload, He.
  - intros Hnone. rewrite load_absent in Hd by done. by injection Hd.
  - intros raw Hraw. by rewrite (load_json _ _ raw) in Hd.
Qed.

(** X23. When the load at the top of a run raises, nothing is saved: the
    file that could not be read is left as it is. *)
Theorem autosave_keeps_unreadable (k : string) (st : store) (e : exn) :
  (load_month_data k st).1 = Raise e →
  autosave k st = (Raise e, st).
Proof.
  intros He. unfold autosave, mbind, io_bind.
  pose proof (load_store k st) as Hst.
  destruct (load_month_data k st) as [r st']. simpl in *. by subst.
Qed.

(** X24. Runs that do not edit the record settle: after two of them, a
    further one leaves the directory as it is. *)
Theorem autosave_settles (k : string) (st : store) :
  is_month_key k = true →
  (autosave k (autosave k (autosave k st).2).2).2
  = (autosave k (autosave k st).2).2.
Proof.
  intros Hk.
  assert (Hstep : ∀ s, (autosave k s).2 =
            match (load_month_data k s).1 with
            | Ok d => <[get_data_file k := Json d]> s
            | Raise _ => s
            end).
  { intros s. unfold autosave, mbind, io_bind.
    pose proof (load_store k s) as Hs.
    destruct (load_month_data k s) as [[d|e] s']; simpl in *; subst; [|done].
    by rewrite save_store. }
  rewrite (Hstep st).
  destruct (load_month_data k st).1 as [d|e] eqn:Hd.
  - destruct (load_typed _ _ _ Hd) as [r ->].
    rewrite (Hstep (<[_ := _]> st)).
    rewrite (load_json _ _ (to_dict r)) by apply lookup_insert_eq.
    rewrite normalize_to_dict. simpl.
    rewrite (Hstep (<[_ := _]> (<[_ := _]> st))).
    rewrite (load_json _ _ (to_dict (reread r))) by apply lookup_insert_eq.
    rewrite normalize_to_dict, reread_idemp. simpl.
    by rewrite insert_insert_eq.
  - rewrite (Hstep st), Hd. by rewrite (Hstep st), Hd.
Qed.

End PageExtras.

(** ** The years of the Year view *)

Lemma year_texts_checked : year_texts_ok = true.
Proof. vm_compute. reflexivity. Qed.

Lemma is_digit_chars (c : Ascii.ascii) : is_digit c = true → In c digit_chars.
Proof.
  destruct c as [[] [] [] [] [] [] [] []]; vm_compute; intros Hc;
    try discriminate; tauto.
Qed.

Lemma year_text_digits (y1 y2 y3 y4 : Ascii.ascii) :
  is_digit y1 = true → is_digit y2 = true →
  is_digit y3 = true → is_digit y4 = true →
  year_text_ok y1 y2 y3 y4 = true.
Proof.
  intros H1%is_digit_chars H2%is_digit_chars H3%is_digit_chars H4%is_digit_chars.
  pose proof year_texts_checked as Hall. unfold year_texts_ok in Hall.
  rewrite forallb_forall in Hall. specialize (Hall y1 H1).
  rewrite forallb_forall in Hall. specialize (Hall y2 H2).
  rewrite forallb_forall in Hall. specialize (Hall y3 H3).
  rewrite forallb_forall in Hall. by specialize (Hall y4 H4).
Qed.

Lemma is_digit_dash_eqb (c : Ascii.ascii) :
  is_digit c = true →
  Ascii.eqb c (Ascii.Ascii true false true true false true false false) = false.
Proof.
  intros Hc.
  destruct (Ascii.eqb_spec c (Ascii.Ascii true false true true false true false false))
    as [->|]; [|reflexivity].
  vm_compute in Hc. discriminate.
Qed.

Lemma list_index_elem (x : Z) (l : list Z) :
  x ∈ l → ∃ i, list_index x l = Ok i ∧ l !! i = Some x.
Proof.
  induction l as [|y l IH]; [by intros ?%not_elem_of_nil|].
  intros Hx. simpl. case_bool_decide as Hy.
  - subst. by exists 0%nat.
  - apply elem_of_cons in Hx as [->|Hx]; [done|].
    destruct (IH Hx) as (i & -> & Hi). by exists (S i).
Qed.

Section Years.
Context `{IntSyntax}.

(** The year of a month key: its four digits, read as a number that is
    written back as those digits exactly when the first is no zero. *)
Lemma month_key_year (m : string) :
  is_month_key m = true →
  split_head m = year_of m
  ∧ ∃ n, py_int (split_head m) = Ok n
      ∧ (pretty n = year_of m ↔ String.prefix "0" m = false).
Proof.
  intros (y1 & y2 & y3 & y4 & m1 & m2 & -> & Hd)%month_key_inv.
  repeat (apply Forall_cons in Hd as [? Hd]).
  assert (Hhead : split_head
            (String y1 (String y2 (String y3 (String y4
               (String (Ascii.ascii_of_nat 45) (String m1 (String m2 EmptyString)))))))
          = String y1 (String y2 (String y3 (String y4 EmptyString)))).
  { simpl. by rewrite !is_digit_dash_eqb. }
  split; [done|]. rewrite Hhead. unfold year_of. simpl String.substring.
  unfold py_int. rewrite int_of_digits; [|done|simpl; by rewrite !andb_true_iff].
  assert (Hok := year_text_digits y1 y2 y3 y4
                   ltac:(done) ltac:(done) ltac:(done) ltac:(done)).
  unfold year_text_ok in Hok.
  change (String.list_ascii_of_string
            (String y1 (String y2 (String y3 (String y4 EmptyString)))))
    with [y1; y2; y3; y4].
  destruct (digits_value 0 [y1; y2; y3; y4]) as [n|]; [|by discriminate Hok].
  exists n. split; [done|].
  apply Bool.eqb_prop in Hok.
  rewrite <- String.eqb_eq, Hok.
  destruct (String.eqb_spec (String y1 EmptyString) "0") as [[= ->]|Hne].
  - by vm_compute.
  - split; [|done]. intros _.
    destruct (String.prefix "0" _) eqn:E; [|done].
    apply prefix_cons in E as [<- _]. by destruct Hne.
Qed.

Lemma for_each_elem {A B} (f : A → result B) (xs : list A) (ys : list B) :
  for_each f xs = Ok ys → ∀ y, y ∈ ys ↔ ∃ x, x ∈ xs ∧ f x = Ok y.
Proof.
  intros Hys%for_each_ok_inv y.
  induction Hys as [|x y' xs ys Hxy _ IH].
  - split; [by intros ?%not_elem_of_nil|]. by intros (x & ?%not_elem_of_nil & _).
  - rewrite elem_of_cons, IH. split.
    + intros [->|(x' & Hx' & Hf)].
      * exists x. split; [by left|done].
      * exists x'. split; [by right|done].
    + intros (x' & [->|Hx']%elem_of_cons & Hf).
      * left. rewrite Hxy in Hf. by injection Hf.
      * right. by exists x'.
Qed.

(** X25. With a month key as the current month, the years of the Year view
    are always computed: they are in strictly ascending order, they are the
    current year and the years of the saved months and no other, and the
    lookup of the current year among them, which places the selection,
    finds it. *)
Theorem available_years_ok (st : store) (current_month : string)
    (months : list string) :
  is_month_key current_month = true →
  (list_saved_months st).1 = Ok months →
  ∃ cy ys i, available_years months current_month = Ok (cy, ys)
    ∧ py_int (split_head current_month) = Ok cy
    ∧ StronglySorted Z.lt ys
    ∧ list_index cy ys = Ok i ∧ ys !! i = Some cy
    ∧ ∀ y, y ∈ ys ↔ y = cy ∨ ∃ m, m ∈ months ∧ py_int (split_head m) = Ok y.
Proof.
  intros Hcm Hmonths. rewrite list_saved_months_eq in Hmonths.
  cbn [fst] in Hmonths. injection Hmonths as <-.
  destruct (month_key_year _ Hcm) as (_ & cy & Hcy & _).
  destruct (for_each_ok (λ m, py_int (split_head m)) (saved_months st))
    as [years Hyears].
  { apply Forall_forall. intros m Hm%saved_months_keys.
    destruct (month_key_year _ Hm) as (_ & n & -> & _). done. }
  pose proof (for_each_elem _ _ _ Hyears) as Hin.
  set (ys := merge_sort Z.le (remove_dups (years ++ [cy]))).
  assert (Hys : ∀ y, y ∈ ys
            ↔ y = cy ∨ ∃ m, m ∈ saved_months st ∧ py_int (split_head m) = Ok y).
  { intros y. unfold ys. rewrite merge_sort_Permutation, elem_of_remove_dups.
    rewrite elem_of_app, list_elem_of_singleton, Hin. tauto. }
  destruct (list_index_elem cy ys) as (i & Hi & Hlook).
  { apply Hys. by left. }
  exists cy, ys, i. split.
  { unfold available_years. rewrite Hcy. simpl. by rewrite Hyears. }
  split; [done|]. split; [|done].
  assert (Hsorted : StronglySorted (strict Z.le) ys).
  { apply strongly_sorted_strict; [apply _| |].
    - apply StronglySorted_merge_sort; apply _.
    - unfold ys. rewrite merge_sort_Permutation. apply NoDup_remove_dups. }
  clear -Hsorted. induction Hsorted as [|y l _ IH Hy]; constructor; [done|].
  eapply Forall_impl; [done|]. intros z [Hle Hnle]. simpl in *. lia.
Qed.

End Years.

Section YearShown.
Context `{FloatSyntax} `{IntSyntax}.

(** X26. In a directory whose file names are ASCII, take a saved month
    and select its year in the Year view: the month has a row in the
    summary exactly when its key does not start with a zero. The year is
    read as a number and written back without leading zeros, so the
    months of a year below 1000 are offered but not found. *)
Theorem year_of_saved_month_shown (st : store) (months : list string)
    (m : string) (year : Z) (rows : list row) :
  ascii_names st = true →
  (list_saved_months st).1 = Ok months →
  m ∈ months →
  py_int (split_head m) = Ok year →
  (aggregate_year year st).1 = Ok rows →
  m ∈ map Month rows ↔ String.prefix "0" m = false.
Proof.
  intros _ Hmonths Hm Hyear Hrows. rewrite list_saved_months_eq in Hmonths.
  cbn [fst] in Hmonths. injection Hmonths as <-.
  apply aggregate_year_rows, rows_months in Hrows. rewrite Hrows.
  rewrite months_of_year_spec.
  destruct (month_key_year m) as (_ & n & Hn & Hpretty);
    [by eapply saved_months_keys|].
  rewrite Hn in Hyear. injection Hyear as <-.
  rewrite <- Hpretty. split; [by intros [_ ->]|by intros ->].
Qed.

End YearShown.

(** * Normalization and the rows of a year, as the code has them *)

(** ** What [normalize] accepts *)

Section Accepted.
Context `{FloatSyntax}.









End Accepted.

(** ** The rows of a year *)




Section YearRows.
Context `{FloatSyntax}.


End YearRows.

(** * More of the code, on the examples *)

Lemma example_months :
  saved_months example_store = ["2024-12"; "2025-01"; "2025-03"].
Proof. vm_compute. reflexivity. Qed.

Lemma example_march_loaded :
  (@load_month_data integer_literals "2025-03" example_store).1
  = Ok (to_dict march_record).
Proof. vm_compute. reflexivity. Qed.

(** Saving July 2025 puts it among the saved months. *)
Lemma save_adds_month_example :
  "2025-07" ∈ saved_months
    (save_month_data "2025-07" default_month_data example_store).2.
Proof.
  apply (save_adds_month "2025-07" default_month_data example_store
           (saved_months example_store) _ eq_refl eq_refl eq_refl "2025-07").
  left. reflexivity.
Defined.

Lemma save_other_month_example :
  (@load_month_data integer_literals "2025-03"
     (save_month_data "2025-07" VNone example_store).2).1
  = (@load_month_data integer_literals "2025-03" example_store).1.
Proof.
  apply (@save_other_month integer_literals "2025-07" "2025-03" VNone example_store).
  discriminate.
Defined.

Lemma save_overwrites_example :
  (@load_month_data integer_literals "2025-03"
     (save_month_data "2025-03" march_raw example_store).2).1
  = @normalize integer_literals march_raw.
Proof.
  exact (proj2 (proj2 (@save_overwrites integer_literals "2025-03" VNone march_raw
                         example_store eq_refl))).
Defined.

Lemma reset_other_month_example :
  (@load_month_data integer_literals "2025-03"
     (reset_month "2025-01" example_store).2).1
  = (@load_month_data integer_literals "2025-03" example_store).1.
Proof.
  refine (proj2 (@reset_other_month integer_literals "2025-01" "2025-03"
                   example_store _)).
  discriminate.
Defined.

Lemma aggregate_year_raises_example :
  ∃ ym, ym ∈ saved_months example_store ∧ year_of ym = pretty 2024%Z
    ∧ (@load_month_data integer_literals ym example_store).1 = Raise JSONDecodeError.
Proof.
  apply (proj2 (@aggregate_year_raises integer_literals 2024 example_store)
           JSONDecodeError).
  vm_compute. reflexivity.
Defined.

Lemma normalize_keeps_items_example :
  ∃ r inc, to_dict march_record = to_dict r
    ∧ raw_items march_raw "income_items" = Ok inc
    ∧ length (md_income r) = length inc.
Proof.
  destruct (@normalize_keeps_items integer_literals march_raw
              (to_dict march_record) march_normalized)
    as (r & inc & bi & exs & sa & Hr & Hinc & _ & _ & _ & _ & _ & _ & _ & Hlen & _).
  exists r, inc. split; [exact Hr|]. split; [exact Hinc | exact Hlen].
Defined.

(** A stored record that is the empty object: no item at all, where the
    default record has nine. *)
Lemma normalize_missing_fields_example :
  ∃ r, to_dict (MonthData pos_zero pos_zero [] [] [] []) = to_dict r
    ∧ md_income r = [] ∧ md_bills r = [].
Proof.
  destruct (@normalize_missing_fields integer_literals []
              (to_dict (MonthData pos_zero pos_zero [] [] [] [])) eq_refl)
    as (r & Hr & _ & _ & Hinc & Hbi & _).
  exists r. split; [exact Hr|]. split; [exact (Hinc eq_refl) | exact (Hbi eq_refl)].
Defined.

(** A note beside the known fields is not read. *)
Lemma normalize_known_fields_example :
  @normalize integer_literals (VDict [("debt", VInt 5); ("note", VStr "cash")])
  = @normalize integer_literals (VDict [("debt", VInt 5)]).
Proof.
  apply (proj1 (@normalize_known_fields integer_literals
                  [("debt", VInt 5); ("note", VStr "cash")] [("debt", VInt 5)])).
  intros key Hkey. unfold record_keys in Hkey.
  repeat (apply elem_of_cons in Hkey as [->|Hkey]; [reflexivity|]).
  inversion Hkey.
Defined.

Lemma normalize_twice_example :
  ∃ n', @normalize integer_literals (to_dict march_record) = Ok n'
    ∧ @normalize integer_literals n' = Ok n'.
Proof.
  exact (@normalize_twice integer_literals march_raw (to_dict march_record)
           march_normalized).
Defined.

Lemma normalize_not_object_example :
  @normalize integer_literals (VList [VInt 1]) = Raise AttributeError.
Proof.
  refine (proj1 (@normalize_not_object integer_literals (VList [VInt 1]) _)).
  intros kvs. discriminate.
Defined.

Lemma loaded_record_usable_example :
  ∃ t, @calculate_totals integer_literals (to_dict march_record) = Ok t.
Proof.
  exact (proj1 (@loaded_record_usable integer_literals "2025-03" example_store
                  (to_dict march_record) example_march_loaded)).
Defined.

Lemma year_row_same_sums_example :
  ∃ rw, @year_row integer_literals "2025-03" (to_dict march_record) = Ok rw
    ∧ Income rw = lit 3000.
Proof.
  destruct (@year_row_same_sums integer_literals "2025-03" (to_dict march_record)
              _ march_totals) as (rw & Hrw & Hinc & _).
  exists rw. split; [exact Hrw | exact Hinc].
Defined.

(** The rent, paid and under another name: the totals are the same. *)
Lemma totals_ignore_names_example :
  @calculate_totals integer_literals (to_dict march_record)
  = @calculate_totals integer_literals
      (to_dict (MonthData (lit 50) (lit 100)
                  [LineItem (VStr "Salary") (lit 3000)]
                  [BillItem (VStr "Flat") (lit 1200) true]
                  [LineItem (VStr "Food") (lit 400)]
                  [LineItem (VStr "Reserve") (lit 200)])).
Proof.
  exact (proj1 (@totals_ignore_names integer_literals "2025-03" march_record _
                  eq_refl eq_refl eq_refl eq_refl eq_refl eq_refl)).
Defined.

Lemma export_one_row_per_item_example :
  ∃ rows, @export_rows integer_literals (to_dict march_record) = Ok rows
    ∧ ∃ inc bi exs sa : list value,
        map Category rows
        = replicate (length inc) "Income" ++ replicate (length bi) "Bills"
          ++ replicate (length exs) "Expenses" ++ replicate (length sa) "Savings".
Proof.
  eexists. split; [apply export_rows_to_dict|].
  destruct (@export_one_row_per_item integer_literals (to_dict march_record) _
              (export_rows_to_dict march_record))
    as (inc & bi & exs & sa & _ & _ & _ & _ & _ & Hcat).
  exists inc, bi, exs, sa. exact Hcat.
Defined.

Lemma export_agrees_with_totals_example :
  ∃ rows, @export_rows integer_literals (to_dict march_record) = Ok rows
    ∧ pysum (amounts_of "Bills" rows) = lit 1200.
Proof.
  eexists. split; [apply export_rows_to_dict|].
  exact (proj1 (proj2 (@export_agrees_with_totals integer_literals
                         (to_dict march_record) _ _
                         (export_rows_to_dict march_record) march_totals))).
Defined.

(** Income 100, nothing carried over, 50 overspent. *)
Lemma donut_overspent_example :
  donut_values (lit 100) pos_zero (lit (-50)) = [pos_zero; fadd (lit 100) pos_zero].
Proof. exact (donut_overspent (lit 100) pos_zero (lit (-50)) eq_refl eq_refl). Defined.

(** A run on July 2025, which has no file. *)
(** A run of the Year view on July 2025 with the year 2025 selected: the
    months of 2025 load, and July gets its file. With the year 2024
    selected the run ends at December 2024 and writes nothing. *)
Lemma run_saves_loaded_example :
  @run_to_save integer_literals _ (@aggregate_year integer_literals 2025)
    "2025-07" example_store
  = (Ok (), <[get_data_file "2025-07" := Json default_month_data]> example_store)
  ∧ @run_to_save integer_literals _ (@aggregate_year integer_literals 2024)
      "2025-07" example_store
    = (Raise JSONDecodeError, example_store).
Proof.
  destruct (@run_saves_loaded integer_literals _
              (@aggregate_year integer_literals 2025) "2025-07" example_store
              default_month_data eq_refl) as (Hsave & _).
  { vm_compute. reflexivity. }
  destruct (@run_saves_loaded integer_literals _
              (@aggregate_year integer_literals 2024) "2025-07" example_store
              default_month_data eq_refl) as (_ & Hraise & _).
  { vm_compute. reflexivity. }
  split.
  - refine (proj1 (Hsave [row_of "2025-01" (MonthData pos_zero pos_zero [] [] [] []);
                          row_of "2025-03" march_record] _)).
    pose proof example_rows as Hrows. rewrite aggregate_year_eq in Hrows.
    rewrite aggregate_year_eq. simpl in Hrows. by rewrite Hrows.
  - apply Hraise. rewrite aggregate_year_eq. f_equal.
Defined.

(** A run on December 2024, which does not parse. *)
Lemma autosave_keeps_unreadable_example :
  @autosave integer_literals "2024-12" example_store
  = (Raise JSONDecodeError, example_store).
Proof.
  apply (@autosave_keeps_unreadable integer_literals "2024-12" example_store).
  vm_compute. reflexivity.
Defined.

Lemma autosave_settles_example :
  (@autosave integer_literals "2025-03"
     (@autosave integer_literals "2025-03"
        (@autosave integer_literals "2025-03" example_store).2).2).2
  = (@autosave integer_literals "2025-03"
       (@autosave integer_literals "2025-03" example_store).2).2.
Proof. exact (@autosave_settles integer_literals "2025-03" example_store eq_refl). Defined.

Lemma available_years_ok_example :
  ∃ cy ys, @available_years digit_texts (saved_months example_store) "2025-07"
           = Ok (cy, ys)
    ∧ StronglySorted Z.lt ys.
Proof.
  destruct (@available_years_ok digit_texts example_store "2025-07"
              (saved_months example_store) eq_refl eq_refl)
    as (cy & ys & i & Hys & _ & Hsorted & _).
  exists cy, ys. split; [exact Hys | exact Hsorted].
Defined.

(** March 2025 is in the summary of 2025. *)
Lemma year_of_saved_month_shown_example :
  "2025-03" ∈ map Month
    [row_of "2025-01" (MonthData pos_zero pos_zero [] [] [] []);
     row_of "2025-03" march_record].
Proof.
  refine (proj2 (@year_of_saved_month_shown integer_literals digit_texts
                   example_store (saved_months example_store) "2025-03" 2025%Z _
                   eq_refl eq_refl _ eq_refl example_rows) eq_refl).
  rewrite example_months. apply elem_of_cons. right.
  apply elem_of_cons. right. apply elem_of_cons. left. reflexivity.
Defined.

(** The notes of the example directory are no month. *)
Lemma list_ignores_other_files_example :
  (list_saved_months (delete "notes.json" example_store)).1
  = (list_saved_months example_store).1.
Proof.
  refine (proj2 (list_ignores_other_files "notes.json" Malformed example_store
                   eq_refl _)).
  left. reflexivity.
Defined.

(** ** Normalization, negative amounts and the rows of a year *)


Lemma refund_normalized :
  @normalize integer_literals refund_raw = Ok (to_dict refund_record).
Proof. vm_compute. reflexivity. Qed.







(** The months of the example directory. *)
Lemma list_saved_months_sorted_example :
  Forall (λ m, is_month_key m = true) ["2024-12"; "2025-01"; "2025-03"].
Proof.
  destruct (list_saved_months_sorted example_store)
    as (months & Hmonths & _ & _ & Hkeys).
  assert (Hlist : list_saved_months example_store
                  = (Ok ["2024-12"; "2025-01"; "2025-03"], example_store))
    by (rewrite list_saved_months_eq, example_months; reflexivity).
  rewrite Hlist in Hmonths. injection Hmonths as <-.
  apply Hkeys. vm_compute. reflexivity.
Defined.
